(** * The Privacy Diary (terminal edition): a shallow embedding

    The development follows [privacy_diary_terminal.py]:
    - Python strings are sequences of Unicode code points, [bytes] are
      sequences of octets, [dict] is an insertion-ordered association list;
    - the process runs in a state monad with exceptions over a [State] that
      holds the file system, the clock, the terminal, the local model
      server and the fields of the two mutable objects of the program;
    - what the program imports (the Fernet cipher, the [json] module, the
      Unicode case tables of [str.upper]/[str.lower], the text of codec
      errors) is an interface the model is parametrised by.

    Exceptions of the model are instances of Python's [Exception] class,
    the ones an [except Exception] clause catches. *)

From Stdlib Require Import ZArith List Sorted Permutation Lia Bool Ascii String
  DecimalString.
Import ListNotations.
Open Scope Z_scope.

Set Implicit Arguments.

(* ------------------------------------------------------------------ *)
(** ** Strings and bytes *)

Definition char := Z.
Definition str := list char.
Definition bytes := list Z.

(** An ASCII literal of the source, as a sequence of code points. *)
Definition lit (s : string) : str :=
  map (fun a => Z.of_N (N_of_ascii a)) (list_ascii_of_string s).

Definition str_eqb (a b : str) : bool :=
  if list_eq_dec Z.eq_dec a b then true else false.

(** Code points that Python can store in a [str]. *)
Definition is_codepoint (c : char) : Prop := 0 <= c <= 0x10FFFF.

(** The surrogate range U+D800..U+DFFF. *)
Definition is_surrogate (c : char) : bool := (0xD800 <=? c) && (c <=? 0xDFFF).

(** Unicode scalar values: code points that are not surrogates. *)
Definition is_scalar (c : char) : Prop :=
  is_codepoint c /\ is_surrogate c = false.

(* ------------------------------------------------------------------ *)
(** ** Exceptions *)

Inductive exn_class :=
| UnicodeEncodeError | UnicodeDecodeError | InvalidToken | ValueError
| JSONDecodeError | TypeError | OSError | EOFError | AttributeError
| ConnectionError | ResponseError.

(** An exception: its class and [str(e)]. *)
Record exn := Exc { exn_cls : exn_class; exn_str : str }.

Definition result (A : Type) := (exn + A)%type.

Definition ok {A} (a : A) : result A := inr a.
Definition err {A} (e : exn) : result A := inl e.

Definition rbind {A B} (r : result A) (k : A -> result B) : result B :=
  match r with
  | inl e => inl e
  | inr a => k a
  end.

(* ------------------------------------------------------------------ *)
(** ** UTF-8, the codec of [str.encode()] and [bytes.decode()] *)

Definition utf8_encode_char (c : char) : option bytes :=
  if c <? 0 then None
  else if c <? 0x80 then Some [c]
  else if c <? 0x800 then Some [0xC0 + c / 64; 0x80 + c mod 64]
  else if c <? 0x10000 then
    if is_surrogate c then None
    else Some [0xE0 + c / 4096; 0x80 + (c / 64) mod 64; 0x80 + c mod 64]
  else if c <=? 0x10FFFF then
    Some [0xF0 + c / 262144; 0x80 + (c / 4096) mod 64;
          0x80 + (c / 64) mod 64; 0x80 + c mod 64]
  else None.

Fixpoint utf8_encode (s : str) : option bytes :=
  match s with
  | [] => Some []
  | c :: t =>
      match utf8_encode_char c, utf8_encode t with
      | Some b, Some bt => Some (b ++ bt)
      | _, _ => None
      end
  end.

Definition is_cont (b : Z) : bool := (0x80 <=? b) && (b <=? 0xBF).

(** The strict decoder: overlong forms, surrogates, code points above
    U+10FFFF, stray continuation bytes and truncated sequences are errors. *)
Fixpoint utf8_decode (bs : bytes) : option str :=
  match bs with
  | [] => Some []
  | b0 :: r0 =>
      if (0 <=? b0) && (b0 <? 0x80) then option_map (cons b0) (utf8_decode r0)
      else if (0xC2 <=? b0) && (b0 <=? 0xDF) then
        match r0 with
        | b1 :: r1 =>
            if is_cont b1
            then option_map (cons ((b0 - 0xC0) * 64 + (b1 - 0x80)))
                            (utf8_decode r1)
            else None
        | _ => None
        end
      else if (0xE0 <=? b0) && (b0 <=? 0xEF) then
        match r0 with
        | b1 :: b2 :: r2 =>
            let c := (b0 - 0xE0) * 4096 + (b1 - 0x80) * 64 + (b2 - 0x80) in
            if is_cont b1 && is_cont b2 && (0x800 <=? c)
               && negb (is_surrogate c)
            then option_map (cons c) (utf8_decode r2)
            else None
        | _ => None
        end
      else if (0xF0 <=? b0) && (b0 <=? 0xF4) then
        match r0 with
        | b1 :: b2 :: b3 :: r3 =>
            let c := (b0 - 0xF0) * 262144 + (b1 - 0x80) * 4096
                     + (b2 - 0x80) * 64 + (b3 - 0x80) in
            if is_cont b1 && is_cont b2 && is_cont b3
               && (0x10000 <=? c) && (c <=? 0x10FFFF)
            then option_map (cons c) (utf8_decode r3)
            else None
        | _ => None
        end
      else None
  end.

(* ------------------------------------------------------------------ *)
(** ** The string methods the program calls *)

(** [str.isspace] of one code point: the white space that [strip()] and
    [split()] remove. *)
Definition is_space (c : char) : bool :=
  ((9 <=? c) && (c <=? 13)) || ((28 <=? c) && (c <=? 32))
  || (c =? 0x85) || (c =? 0xA0) || (c =? 0x1680)
  || ((0x2000 <=? c) && (c <=? 0x200A))
  || (c =? 0x2028) || (c =? 0x2029) || (c =? 0x202F) || (c =? 0x205F)
  || (c =? 0x3000).

Fixpoint lstrip (s : str) : str :=
  match s with
  | [] => []
  | c :: t => if is_space c then lstrip t else s
  end.

Definition rstrip (s : str) : str := rev (lstrip (rev s)).

(** [s.strip()] *)
Definition strip (s : str) : str := rstrip (lstrip s).

(** [sep.join(parts)] *)
Fixpoint join (sep : str) (parts : list str) : str :=
  match parts with
  | [] => []
  | [p] => p
  | p :: rest => p ++ sep ++ join sep rest
  end.

Fixpoint split_from (cur : str) (s : str) : list str :=
  match s with
  | [] => match cur with [] => [] | _ => [rev cur] end
  | c :: t =>
      if is_space c
      then match cur with
           | [] => split_from [] t
           | _ => rev cur :: split_from [] t
           end
      else split_from (c :: cur) t
  end.

(** [s.split()]: the maximal runs without white space. *)
Definition split (s : str) : list str := split_from [] s.

(** [a < b] on strings: lexicographic on code points. *)
Fixpoint str_ltb (a b : str) : bool :=
  match a, b with
  | _, [] => false
  | [], _ :: _ => true
  | x :: a', y :: b' =>
      if x <? y then true else if y <? x then false else str_ltb a' b'
  end.

(** [str(n)] of a natural number. *)
Definition str_of_nat (n : nat) : str :=
  lit (NilZero.string_of_uint (Nat.to_uint n)).

Definition NL : str := [10].

(* ------------------------------------------------------------------ *)
(** ** dict: insertion-ordered, one binding per key *)

Definition dict := list (str * str).

Fixpoint dict_get (k : str) (d : dict) : option str :=
  match d with
  | [] => None
  | (k', v) :: t => if str_eqb k' k then Some v else dict_get k t
  end.

(** [d[k] = v]: an existing key keeps its place, a new key goes last. *)
Fixpoint dict_set (k v : str) (d : dict) : dict :=
  match d with
  | [] => [(k, v)]
  | (k', v') :: t =>
      if str_eqb k' k then (k', v) :: t else (k', v') :: dict_set k v t
  end.

Definition keys (d : dict) : list str := map fst d.

(** What a [dict] guarantees: no key occurs twice. *)
Definition dict_ok (d : dict) : Prop := NoDup (keys d).

(** [<] on the [(key, value)] tuples of [dict.items()]. *)
Definition item_ltb (p q : str * str) : bool :=
  if str_eqb (fst p) (fst q) then str_ltb (snd p) (snd q)
  else str_ltb (fst p) (fst q).

Fixpoint insert_desc (x : str * str) (l : list (str * str)) :=
  match l with
  | [] => [x]
  | y :: t => if item_ltb x y then y :: insert_desc x t else x :: l
  end.

(** [sorted(items, reverse=True)]: stable, descending. *)
Fixpoint sorted_reverse (l : list (str * str)) : list (str * str) :=
  match l with
  | [] => []
  | x :: t => insert_desc x (sorted_reverse t)
  end.

(** [l[:n]]: a negative [n] counts from the end. *)
Definition slice_to {A} (l : list A) (n : Z) : list A :=
  if 0 <=? n then firstn (Z.to_nat n) l
  else firstn (List.length l - Z.to_nat (- n)) l.

(* ------------------------------------------------------------------ *)
(** ** Terminal colour codes: class Colors *)

Module Colors.
Definition code (digits : string) : str :=
  27 :: lit ("[" ++ digits ++ "m")%string.
Definition HEADER := code "95".
Definition BLUE := code "94".
Definition CYAN := code "96".
Definition GREEN := code "92".
Definition YELLOW := code "93".
Definition RED := code "91".
Definition BOLD := code "1".
Definition UNDERLINE := code "4".
Definition END := code "0".
End Colors.

(* ------------------------------------------------------------------ *)
(** ** Files *)

Inductive path := KEY_FILE | ENTRIES_FILE.

Definition path_eqb (p q : path) : bool :=
  match p, q with
  | KEY_FILE, KEY_FILE | ENTRIES_FILE, ENTRIES_FILE => true
  | _, _ => false
  end.

Record file := File { f_data : bytes; f_mode : Z }.

Inductive io_op :=
| OpenRead (p : path) | OpenWrite (p : path) | WriteData (p : path)
| Chmod (p : path).

(* ------------------------------------------------------------------ *)
(** ** What the program imports *)

(** The Python runtime and the [json] module. *)
Class PyRuntime := {
  (** [str.upper()] of one code point outside ASCII *)
  upper_nonascii : char -> str;
  (** [str.lower()] of one code point outside ASCII, which for a capital
      sigma depends on the text before and after it *)
  lower_nonascii : str -> str -> char -> str;
  (** [str(e)] of the error a codec raises on this input *)
  encode_error_text : str -> str;
  decode_error_text : bytes -> str;
  (** [str(p)] of a path under the user's home directory *)
  path_text : path -> str;
  (** [json.dumps(d, indent=2)] and [json.loads(s)] *)
  json_dumps : list (str * str) -> result str;
  json_loads : str -> result (list (str * str))
}.

(** [cryptography.fernet]. Encryption draws an initialisation vector and
    reads the time: [nonce] stands for both. *)
Class FernetLib := {
  cipher : Type;
  Fernet : bytes -> result cipher;
  generate_key : nat -> bytes;
  fernet_encrypt : cipher -> nat -> bytes -> bytes;
  fernet_decrypt : cipher -> bytes -> result bytes
}.

(** The guarantee of the Fernet recipe: a token decrypts, under the key
    that made it, to the message it was made from. *)
Definition fernet_correct (F : FernetLib) : Prop :=
  forall (c : cipher) (nonce : nat) (m : bytes),
    fernet_decrypt c (fernet_encrypt c nonce m) = ok m.

(* ------------------------------------------------------------------ *)
(** ** The state of the process and of the machine around it *)

(** The local model server: what the [n]-th request gets.  [ollama.list()]
    succeeds or raises; a chat completion raises or yields a response
    whose message content is a string or [None]. *)
Record Server := {
  list_reply : nat -> option exn;
  chat_reply : nat -> str -> str -> result (option str)
}.

Record State := mkState {
  (** disk: the files, the operations the system refuses, the umask *)
  fs : path -> option file;
  io_fault : io_op -> option exn;
  umask : Z;
  (** [datetime.now().isoformat()] at each successive reading *)
  clock : nat -> str;
  ticks : nat;
  (** draws from the system's random source so far *)
  entropy : nat;
  (** terminal: the lines still to be read, what has been written *)
  stdin : list str;
  stdout : list str;
  (** model server *)
  server : Server;
  requests : nat;
  (** [DiaryStorage.entries] and [OllamaManager.is_available] *)
  entries : dict;
  is_available : bool
}.

Definition set_fs (f : path -> option file) (s : State) : State :=
  mkState f (io_fault s) (umask s) (clock s) (ticks s) (entropy s)
          (stdin s) (stdout s) (server s) (requests s) (entries s)
          (is_available s).

Definition set_ticks (n : nat) (s : State) : State :=
  mkState (fs s) (io_fault s) (umask s) (clock s) n (entropy s)
          (stdin s) (stdout s) (server s) (requests s) (entries s)
          (is_available s).

Definition set_entropy (n : nat) (s : State) : State :=
  mkState (fs s) (io_fault s) (umask s) (clock s) (ticks s) n
          (stdin s) (stdout s) (server s) (requests s) (entries s)
          (is_available s).

Definition set_stdin (l : list str) (s : State) : State :=
  mkState (fs s) (io_fault s) (umask s) (clock s) (ticks s) (entropy s)
          l (stdout s) (server s) (requests s) (entries s)
          (is_available s).

Definition set_stdout (l : list str) (s : State) : State :=
  mkState (fs s) (io_fault s) (umask s) (clock s) (ticks s) (entropy s)
          (stdin s) l (server s) (requests s) (entries s)
          (is_available s).

Definition set_requests (n : nat) (s : State) : State :=
  mkState (fs s) (io_fault s) (umask s) (clock s) (ticks s) (entropy s)
          (stdin s) (stdout s) (server s) n (entries s)
          (is_available s).

Definition set_entries (d : dict) (s : State) : State :=
  mkState (fs s) (io_fault s) (umask s) (clock s) (ticks s) (entropy s)
          (stdin s) (stdout s) (server s) (requests s) d
          (is_available s).

Definition set_is_available (b : bool) (s : State) : State :=
  mkState (fs s) (io_fault s) (umask s) (clock s) (ticks s) (entropy s)
          (stdin s) (stdout s) (server s) (requests s) (entries s) b.

(** *** The monad: state that survives an exception *)

Definition M (A : Type) := State -> result A * State.

Definition ret {A} (a : A) : M A := fun s => (ok a, s).

Definition raise {A} (e : exn) : M A := fun s => (err e, s).

Definition bind {A B} (m : M A) (k : A -> M B) : M B :=
  fun s =>
    match m s with
    | (inr a, s') => k a s'
    | (inl e, s') => (inl e, s')
    end.

(** [try: body / except Exception as e: handler] *)
Definition try_except {A} (body : M A) (handler : exn -> M A) : M A :=
  fun s =>
    match body s with
    | (inr a, s') => (inr a, s')
    | (inl e, s') => handler e s'
    end.

Definition lift {A} (r : result A) : M A := fun s => (r, s).

Definition get : M State := fun s => (ok s, s).

Definition modify (f : State -> State) : M unit := fun s => (ok tt, f s).

Declare Scope py_scope.
Delimit Scope py_scope with py.
Notation "x <- m ;; k" := (bind m (fun x => k))
  (at level 61, m at next level, right associativity) : py_scope.
Notation "m ;; k" := (bind m (fun _ => k))
  (at level 61, right associativity) : py_scope.
Open Scope py_scope.

Section Model.

Context {R : PyRuntime} {F : FernetLib}.

Definition str_encode (s : str) : result bytes :=
  match utf8_encode s with
  | Some b => ok b
  | None => err (Exc UnicodeEncodeError (encode_error_text s))
  end.

Definition bytes_decode (b : bytes) : result str :=
  match utf8_decode b with
  | Some s => ok s
  | None => err (Exc UnicodeDecodeError (decode_error_text b))
  end.

Definition upper_char (c : char) : str :=
  if c <? 128
  then [if (97 <=? c) && (c <=? 122) then c - 32 else c]
  else upper_nonascii c.

Definition lower_char (before after : str) (c : char) : str :=
  if c <? 128
  then [if (65 <=? c) && (c <=? 90) then c + 32 else c]
  else lower_nonascii before after c.

Fixpoint lower_from (before s : str) : str :=
  match s with
  | [] => []
  | c :: after => lower_char before after c ++ lower_from (before ++ [c]) after
  end.

(** [s.upper()] and [s.lower()] *)
Definition upper (s : str) : str := flat_map upper_char s.
Definition lower (s : str) : str := lower_from [] s.

(** *** The terminal *)

(** [print(x)] *)
Definition print (x : str) : M unit :=
  modify (fun s => set_stdout (stdout s ++ [x ++ NL]) s).

(** [input()]: the next line without its newline; [EOFError] at the end.
    Standard input is a stream with one end, a pipe or a file: once it
    has ended every later read fails too.  (A terminal is different:
    there an end-of-file key fails one read and the next reads on.) *)
Definition input : M str :=
  fun s =>
    match stdin s with
    | [] => (err (Exc EOFError (lit "EOF when reading a line")), s)
    | l :: rest => (ok l, set_stdin rest s)
    end.

(** [input(prompt)] *)
Definition input_prompt (prompt : str) : M str :=
  modify (fun s => set_stdout (stdout s ++ [prompt]) s) ;; input.

(** *** The disk *)

(** [p.exists()], for a path whose directory can be searched: the answer
    is whether the file is there.  (Where the directory cannot be
    searched [Path.exists] raises; such disks are not modelled.) *)
Definition exists_ (p : path) : M bool :=
  fun s => (ok (match fs s p with Some _ => true | None => false end), s).

Definition no_such_file (p : path) : exn :=
  Exc OSError
      (lit "[Errno 2] No such file or directory: '" ++ path_text p ++ lit "'").

Definition fs_put (p : path) (f : file) (s : State) : State :=
  set_fs (fun q => if path_eqb q p then Some f else fs s q) s.

(** [with open(p, 'rb') as f: f.read()] *)
Definition read_file (p : path) : M bytes :=
  fun s =>
    match fs s p with
    | None => (err (no_such_file p), s)
    | Some f =>
        match io_fault s (OpenRead p) with
        | Some e => (err e, s)
        | None => (ok (f_data f), s)
        end
    end.

(** A file mode written in octal, as the source writes it. *)
Definition octal (digits : list Z) : Z :=
  fold_left (fun acc d => 8 * acc + d) digits 0.

(** The mode of a file that [open] creates. *)
Definition creation_mode (s : State) : Z :=
  Z.land (octal [6; 6; 6]) (Z.lnot (umask s)).

Arguments octal : simpl never.
Arguments creation_mode : simpl never.
Arguments lit : simpl never.

(** [with open(p, 'wb') as f: f.write(data)]: opening truncates the file
    (or creates it), then the data are written.  A write that fails is
    taken to fail before any of the data has reached the file. *)
Definition write_file (p : path) (data : bytes) : M unit :=
  fun s =>
    match io_fault s (OpenWrite p) with
    | Some e => (err e, s)
    | None =>
        let mode := match fs s p with
                    | Some f => f_mode f
                    | None => creation_mode s
                    end in
        match io_fault s (WriteData p) with
        | Some e => (err e, fs_put p (File [] mode) s)
        | None => (ok tt, fs_put p (File data mode) s)
        end
    end.

(** [os.chmod(p, mode)] *)
Definition chmod (p : path) (mode : Z) : M unit :=
  fun s =>
    match io_fault s (Chmod p) with
    | Some e => (err e, s)
    | None =>
        match fs s p with
        | None => (err (no_such_file p), s)
        | Some f => (ok tt, fs_put p (File (f_data f) mode) s)
        end
    end.

(** One draw from the system's random source. *)
Definition draw : M nat :=
  fun s => (ok (entropy s), set_entropy (S (entropy s)) s).

(** [datetime.now().isoformat()] *)
Definition now_isoformat : M str :=
  fun s => (ok (clock s (ticks s)), set_ticks (S (ticks s)) s).

(** *** class EncryptionManager *)

Record EncryptionManager := {
  em_key : bytes;
  em_cipher : cipher
}.

(** [_load_or_create_key(self)] *)
Definition _load_or_create_key : M bytes :=
  present <- exists_ KEY_FILE ;;
  if present then read_file KEY_FILE
  else
    n <- draw ;;
    let key := generate_key n in
    write_file KEY_FILE key ;;
    chmod KEY_FILE (octal [6; 0; 0]) ;;
    ret key.

(** [__init__(self)] *)
Definition EncryptionManager_init : M EncryptionManager :=
  key <- _load_or_create_key ;;
  c <- lift (Fernet key) ;;
  ret {| em_key := key; em_cipher := c |}.

(** [encrypt(self, data)]: [self.cipher.encrypt(data.encode())] *)
Definition encrypt (self : EncryptionManager) (data : str) : M bytes :=
  b <- lift (str_encode data) ;;
  n <- draw ;;
  ret (fernet_encrypt (em_cipher self) n b).

(** [decrypt(self, data)]: [self.cipher.decrypt(data).decode()] *)
Definition decrypt (self : EncryptionManager) (data : bytes) : result str :=
  rbind (fernet_decrypt (em_cipher self) data) bytes_decode.

(** *** class DiaryStorage *)

(** [_load_entries(self)] *)
Definition _load_entries (encryption : EncryptionManager) : M dict :=
  present <- exists_ ENTRIES_FILE ;;
  if negb present then ret []
  else
    try_except
      (encrypted_data <- read_file ENTRIES_FILE ;;
       match encrypted_data with
       | [] => ret []
       | _ =>
           decrypted_json <- lift (decrypt encryption encrypted_data) ;;
           lift (json_loads decrypted_json)
       end)
      (fun e =>
         print (Colors.RED ++ lit "Error loading entries: " ++ exn_str e
                ++ Colors.END) ;;
         ret []).

(** [__init__(self, encryption_manager)] *)
Definition DiaryStorage_init (encryption : EncryptionManager) : M unit :=
  d <- _load_entries encryption ;;
  modify (set_entries d).

(** [save_entry(self, content)] *)
Definition save_entry (encryption : EncryptionManager) (content : str)
  : M bool :=
  try_except
    (timestamp <- now_isoformat ;;
     modify (fun s => set_entries (dict_set timestamp content (entries s)) s) ;;
     s <- get ;;
     json_data <- lift (json_dumps (entries s)) ;;
     encrypted_data <- encrypt encryption json_data ;;
     write_file ENTRIES_FILE encrypted_data ;;
     chmod ENTRIES_FILE (octal [6; 0; 0]) ;;
     ret true)
    (fun e =>
       print (Colors.RED ++ lit "Error saving entry: " ++ exn_str e
              ++ Colors.END) ;;
       ret false).

(** [get_entry_count(self)] *)
Definition get_entry_count (s : State) : nat := List.length (entries s).

(** [get_recent_entries(self, limit)] *)
Definition get_recent_entries (s : State) (limit : Z) : list (str * str) :=
  let sorted_entries := sorted_reverse (entries s) in
  slice_to sorted_entries limit.

(** *** class OllamaManager *)

Record OllamaManager := { om_model : str }.

Definition DEFAULT_MODEL : str := lit "llama3".

(** [ollama.list()] *)
Definition ollama_list : M unit :=
  fun s =>
    let s' := set_requests (S (requests s)) s in
    match list_reply (server s) (requests s) with
    | Some e => (err e, s')
    | None => (ok tt, s')
    end.

(** [ollama.chat(model=..., messages=[{'role': 'user', 'content': prompt}],
    options=...)] *)
Definition ollama_chat (model prompt : str) : M (option str) :=
  fun s =>
    (chat_reply (server s) (requests s) model prompt,
     set_requests (S (requests s)) s).

(** [check_availability(self)] *)
Definition check_availability : M bool :=
  try_except
    (ollama_list ;;
     modify (set_is_available true) ;;
     ret true)
    (fun e =>
       modify (set_is_available false) ;;
       ret false).

Definition WARNING_SIGN : str := [0x26A0; 0xFE0F].

Definition not_running_message : str :=
  Colors.YELLOW ++ WARNING_SIGN
  ++ lit "  Ollama is not running. Please start Ollama and try again."
  ++ Colors.END.

Definition analysis_failed_message (e : exn) (model : str) : str :=
  Colors.RED ++ WARNING_SIGN ++ lit "  Analysis failed: " ++ exn_str e
  ++ NL ++ NL ++ lit "Please ensure Ollama is running and the '" ++ model
  ++ lit "' model is installed." ++ Colors.END.

Definition sentiment_prompt (entry_text : str) : str :=
  lit "Analyze the sentiment of this journal entry and provide one short, supportive affirmation (2-3 sentences max)."
  ++ NL ++ NL ++ lit "Journal Entry:" ++ NL ++ entry_text ++ NL ++ NL
  ++ lit "Provide a warm, empathetic response that acknowledges the person's feelings.".

(** [response['message']['content'].strip()] *)
Definition content_strip (content : option str) : result str :=
  match content with
  | Some text => ok (strip text)
  | None =>
      err (Exc AttributeError
               (lit "'NoneType' object has no attribute 'strip'"))
  end.

(** [analyze_sentiment(self, entry_text)] *)
Definition analyze_sentiment (self : OllamaManager) (entry_text : str)
  : M str :=
  available <- check_availability ;;
  if negb available then ret not_running_message
  else
    try_except
      (let prompt := sentiment_prompt entry_text in
       print (Colors.CYAN ++ [0x1F914]
              ++ lit " Analyzing your entry locally..." ++ Colors.END) ;;
       response <- ollama_chat (om_model self) prompt ;;
       lift (content_strip response))
      (fun e => ret (analysis_failed_message e (om_model self))).

(** *** write_entry *)

Definition SENTINEL : str := lit "END".

(** The test of the capture loop: [line.strip().upper() == 'END'] *)
Definition ends_capture (line : str) : bool :=
  str_eqb (upper (strip line)) SENTINEL.

(** The capture loop.  Every turn reads one line, so the loop is a
    recursion on what standard input still holds; it gives the lines
    kept and the input left over.  [EOFError] leaves the loop too. *)
Fixpoint capture (inp : list str) : list str * list str :=
  match inp with
  | [] => ([], [])
  | line :: rest =>
      if ends_capture line then ([], rest)
      else let (lines, left) := capture rest in (line :: lines, left)
  end.

Definition read_lines : M (list str) :=
  fun s => let (lines, left) := capture (stdin s) in (ok lines, set_stdin left s).

Definition RULE : str := [0x2550; 0x2550; 0x2550].

Definition no_entry_notice : str :=
  NL ++ Colors.YELLOW ++ WARNING_SIGN
  ++ lit "  No entry written. Returning to menu." ++ Colors.END.

Definition yes_no_prompt : str := Colors.GREEN ++ lit "[Y/n]:" ++ Colors.END ++ lit " ".

(** [write_entry(storage, ollama_mgr)] *)
Definition write_entry (encryption : EncryptionManager)
           (ollama_mgr : OllamaManager) : M unit :=
  print (NL ++ Colors.BOLD ++ Colors.BLUE ++ RULE ++ lit " NEW JOURNAL ENTRY "
         ++ RULE ++ Colors.END ++ NL) ;;
  print (Colors.CYAN
         ++ lit "Write your thoughts below. When done, type 'END' on a new line:"
         ++ Colors.END ++ NL) ;;
  lines <- read_lines ;;
  let entry_text := strip (join NL lines) in
  match entry_text with
  | [] => print no_entry_notice
  | _ =>
      let word_count := List.length (split entry_text) in
      print (NL ++ Colors.CYAN ++ [0x1F4DD] ++ lit " Entry written: "
             ++ str_of_nat word_count ++ lit " words" ++ Colors.END) ;;
      print (NL ++ Colors.BOLD ++ lit "Would you like AI analysis of this entry?"
             ++ Colors.END) ;;
      choice <- input_prompt yes_no_prompt ;;
      (if negb (str_eqb (lower (strip choice)) (lit "n"))
       then
         print [] ;;
         analysis <- analyze_sentiment ollama_mgr entry_text ;;
         print (NL ++ Colors.BOLD ++ Colors.BLUE ++ RULE ++ lit " AI ANALYSIS "
                ++ RULE ++ Colors.END ++ NL) ;;
         print (Colors.CYAN ++ analysis ++ Colors.END ++ NL)
       else ret tt) ;;
      print (NL ++ Colors.BOLD
             ++ lit "Save this entry? (will be encrypted with AES-128)"
             ++ Colors.END) ;;
      choice <- input_prompt yes_no_prompt ;;
      if negb (str_eqb (lower (strip choice)) (lit "n"))
      then
        saved <- save_entry encryption entry_text ;;
        if saved
        then
          print (NL ++ Colors.GREEN ++ [0x2705] ++ lit " Entry saved successfully!"
                 ++ Colors.END) ;;
          print (Colors.CYAN ++ [0x1F512] ++ lit " Encrypted and stored at: "
                 ++ path_text ENTRIES_FILE ++ Colors.END) ;;
          s <- get ;;
          print (Colors.CYAN ++ [0x1F4CA] ++ lit " Total entries: "
                 ++ str_of_nat (get_entry_count s) ++ Colors.END)
        else
          print (NL ++ Colors.RED ++ [0x274C] ++ lit " Failed to save entry."
                 ++ Colors.END)
      else print (NL ++ Colors.YELLOW ++ lit "Entry discarded." ++ Colors.END)
  end.

(** *** The vocabulary of the properties *)

(** The round trip on one string: encryption gives a token, and the token
    decrypts to the string. *)
Definition roundtrips (self : EncryptionManager) (data : str) (s : State)
  : Prop :=
  exists token s',
    encrypt self data s = (ok token, s') /\ decrypt self token = ok data.

(** Equality up to letter case, as [upper] decides it. *)
Definition equal_up_to_case (a b : str) : bool := str_eqb (upper a) b.

(** The capture loop as it would be if a line ended it only when the line
    itself equals the sentinel up to letter case. *)
Fixpoint capture_on_exact_sentinel (inp : list str) : list str * list str :=
  match inp with
  | [] => ([], [])
  | line :: rest =>
      if equal_up_to_case line SENTINEL then ([], rest)
      else let (lines, left) := capture_on_exact_sentinel rest in
           (line :: lines, left)
  end.

(** What [_load_entries] and [save_entry] print when they catch [e]. *)
Definition load_report (e : exn) (s : State) : State :=
  set_stdout (stdout s ++ [(Colors.RED ++ lit "Error loading entries: "
                            ++ exn_str e ++ Colors.END) ++ NL]) s.

Definition save_report (e : exn) (s : State) : State :=
  set_stdout (stdout s ++ [(Colors.RED ++ lit "Error saving entry: "
                            ++ exn_str e ++ Colors.END) ++ NL]) s.

End Model.

(** One item comes before another in descending order of timestamps. *)
Definition key_gt (p q : str * str) : Prop := str_ltb (fst q) (fst p) = true.

(** The entries under other keys than [k], in their order. *)
Definition others (k : str) (d : dict) : dict :=
  filter (fun kv => negb (str_eqb (fst kv) k)) d.

(** What writing the store file leaves alone. *)
Definition same_process (s s' : State) : Prop :=
  entries s' = entries s /\ clock s' = clock s /\ ticks s' = ticks s /\
  stdin s' = stdin s /\ io_fault s' = io_fault s /\
  fs s' KEY_FILE = fs s KEY_FILE.

(** A line of white space only (the empty line included). *)
Definition blank (line : str) : bool := forallb is_space line.

(** What [write_entry] prints before it reads the entry. *)
Definition entry_banner : str :=
  (NL ++ Colors.BOLD ++ Colors.BLUE ++ RULE ++ lit " NEW JOURNAL ENTRY "
   ++ RULE ++ Colors.END ++ NL) ++ NL.

Definition entry_instructions : str :=
  (Colors.CYAN
   ++ lit "Write your thoughts below. When done, type 'END' on a new line:"
   ++ Colors.END ++ NL) ++ NL.

(* ------------------------------------------------------------------ *)
(** ** A small instance of the interfaces

    The model runs on concrete inputs once the imported functions are
    given.  This instance is a stand-in with the right shape: a cipher that
    masks every byte and marks its tokens, a serialiser that writes one
    line per key and per value. *)

Module Demo.

Definition mask (b : Z) : Z := Z.lxor b 90.

Definition fernet : FernetLib := {|
  cipher := bytes;
  Fernet := fun key =>
    if (List.length key =? 44)%nat then ok key
    else err (Exc ValueError
                  (lit "Fernet key must be 32 url-safe base64-encoded bytes."));
  generate_key := fun n => repeat (65 + Z.of_nat n mod 26) 44;
  fernet_encrypt := fun _ _ m => 128 :: map mask m;
  fernet_decrypt := fun _ token =>
    match token with
    | 128 :: body => ok (map mask body)
    | _ => err (Exc InvalidToken [])
    end
|}.

Fixpoint lines_of (cur : str) (s : str) : list str :=
  match s with
  | [] => [rev cur]
  | c :: t => if c =? 10 then rev cur :: lines_of [] t else lines_of (c :: cur) t
  end.

Fixpoint pairs_of (l : list str) : option dict :=
  match l with
  | [] => Some []
  | k :: v :: t => option_map (cons (k, v)) (pairs_of t)
  | _ => None
  end.

Definition runtime : PyRuntime := {|
  upper_nonascii := fun c => [c];
  lower_nonascii := fun _ _ c => [c];
  encode_error_text := fun _ => lit "surrogates not allowed";
  decode_error_text := fun _ => lit "invalid start byte";
  path_text := fun p =>
    match p with
    | KEY_FILE => lit "/home/user/.privacy_diary/diary.key"
    | ENTRIES_FILE => lit "/home/user/.privacy_diary/diary_entries.enc"
    end;
  json_dumps := fun d =>
    ok (flat_map (fun kv => fst kv ++ NL ++ snd kv ++ NL) d);
  json_loads := fun s =>
    match s with
    | [] => ok []
    | _ =>
        match pairs_of (removelast (lines_of [] s)) with
        | Some d => ok d
        | None => err (Exc JSONDecodeError (lit "Expecting value"))
        end
    end
|}.

Definition silent : Server := {|
  list_reply := fun _ => Some (Exc ConnectionError (lit "Connection refused"));
  chat_reply := fun _ _ _ => err (Exc ConnectionError (lit "Connection refused"))
|}.

(** A first run: empty disk, nothing typed. *)
Definition fresh : State := {|
  fs := fun _ => None;
  io_fault := fun _ => None;
  umask := octal [0; 2; 2];
  clock := fun n => lit "2024-01-01T10:00:0" ++ str_of_nat n;
  ticks := 0;
  entropy := 0;
  stdin := [];
  stdout := [];
  server := silent;
  requests := 0;
  entries := [];
  is_available := false
|}.

(** A diary of three entries, not in the order of their timestamps. *)
Definition three_entries : dict :=
  [(lit "2024-01-02T09:00:00", lit "second");
   (lit "2024-01-01T08:00:00", lit "first");
   (lit "2024-01-03T07:30:00", lit "third")].

Definition diary : State := set_entries three_entries fresh.

(** A clock too coarse to tell two calls apart. *)
Definition frozen : State :=
  mkState (fs fresh) (io_fault fresh) (umask fresh)
          (fun _ => lit "2024-01-01T10:00:00") 0 0 [] [] silent 0 [] false.

(** A disk that refuses to open the store file for writing. *)
Definition read_only : State :=
  mkState (fs fresh)
          (fun op =>
             match op with
             | OpenWrite ENTRIES_FILE =>
                 Some (Exc OSError (lit "[Errno 13] Permission denied"))
             | _ => None
             end)
          (umask fresh) (clock fresh) 0 0 [] [] silent 0 [] false.

Definition key0 : bytes := generate_key (FernetLib := fernet) 0.

(** A disk with a store file of the given contents. *)
Definition with_store (data : bytes) : State :=
  set_fs (fun p => match p with
                   | ENTRIES_FILE => Some (File data (octal [6; 0; 0]))
                   | KEY_FILE => Some (File key0 (octal [6; 0; 0]))
                   end) fresh.

(** The token of the demo cipher for an ASCII text. *)
Definition token_of (text : str) : bytes := 128 :: map mask text.

Definition odd_text : str := lit "odd" ++ NL.

Definition one_entry_text : str :=
  lit "2024-01-01T10:00:00" ++ NL ++ lit "hello" ++ NL.

Definition manager : @EncryptionManager fernet :=
  @Build_EncryptionManager fernet key0 (key0 : @cipher fernet).

End Demo.

(* ------------------------------------------------------------------ *)
(** ** The rest of the program: viewing, status, the menu loop *)

(** What these functions import besides the above. *)
Class Platform := {
  (** [datetime.fromisoformat(t).strftime("%B %d, %Y at %I:%M %p")] *)
  format_timestamp : str -> result str;
  (** what [os.system('clear')], or ['cls'], sends to the terminal *)
  clear_text : str;
  (** [str(DATA_DIR)] *)
  data_dir_text : str
}.

(** One turn of the menu loop goes on to the next or leaves the process
    through [sys.exit(code)]; [SystemExit] is no [Exception], so no
    handler of the program stops it. *)
Inductive turn := Continue | Exit (code : Z).

Section Shell.

Context {R : PyRuntime} {F : FernetLib} {P : Platform}.

(** [OllamaManager.__init__(self, model)] *)
Definition OllamaManager_init (model : str) : M OllamaManager :=
  modify (set_is_available false) ;;
  ret {| om_model := model |}.

Definition BOX_RULE : str := repeat 0x2550 58.

(** [print_banner()] *)
Definition print_banner : M unit :=
  print (NL ++ Colors.BOLD ++ Colors.CYAN ++ [0x2554] ++ BOX_RULE ++ [0x2557]
         ++ NL ++ [0x2551] ++ lit "         " ++ [0x1F512]
         ++ lit "  THE PRIVACY DIARY - TERMINAL EDITION        " ++ [0x2551]
         ++ NL ++ [0x255A] ++ BOX_RULE ++ [0x255D] ++ Colors.END ++ NL ++ NL
         ++ Colors.BOLD ++ lit "100% Local " ++ [0x2022]
         ++ lit " Fully Encrypted " ++ [0x2022] ++ lit " Offline AI"
         ++ Colors.END ++ NL).

(** [print_menu()] *)
Definition print_menu : M unit :=
  print (NL ++ Colors.BOLD ++ lit "MAIN MENU:" ++ Colors.END ++ NL
         ++ lit "  " ++ Colors.GREEN ++ lit "1." ++ Colors.END
         ++ lit " Write new entry" ++ NL
         ++ lit "  " ++ Colors.GREEN ++ lit "2." ++ Colors.END
         ++ lit " View recent entries" ++ NL
         ++ lit "  " ++ Colors.GREEN ++ lit "3." ++ Colors.END
         ++ lit " Check system status" ++ NL
         ++ lit "  " ++ Colors.GREEN ++ lit "4." ++ Colors.END
         ++ lit " Exit" ++ NL ++ NL).

(** [content[:100] + "..." if len(content) > 100 else content] *)
Definition preview (content : str) : str :=
  if (100 <? List.length content)%nat
  then firstn 100 content ++ lit "..."
  else content.

(** The body of [for i, (timestamp, content) in enumerate(recent, 1)]. *)
Fixpoint show_entries (i : nat) (recent : list (str * str)) : M unit :=
  match recent with
  | [] => ret tt
  | (timestamp, content) :: rest =>
      date_str <- lift (format_timestamp timestamp) ;;
      print (Colors.BOLD ++ str_of_nat i ++ lit ". " ++ date_str
             ++ Colors.END) ;;
      print (Colors.CYAN ++ preview content ++ Colors.END) ;;
      print [] ;;
      show_entries (S i) rest
  end.

Definition no_entries_yet : str :=
  Colors.YELLOW ++ lit "No entries yet. Start writing to see them here!"
  ++ Colors.END.

Definition showing_line (shown total : nat) : str :=
  Colors.CYAN ++ [0x1F4CA] ++ lit " Showing " ++ str_of_nat shown
  ++ lit " of " ++ str_of_nat total ++ lit " total entries" ++ Colors.END.

(** [view_recent_entries(storage)] *)
Definition view_recent_entries : M unit :=
  print (NL ++ Colors.BOLD ++ Colors.BLUE ++ RULE ++ lit " RECENT ENTRIES "
         ++ RULE ++ Colors.END ++ NL) ;;
  s <- get ;;
  if (get_entry_count s =? 0)%nat then print no_entries_yet
  else
    let recent := get_recent_entries s 5 in
    show_entries 1 recent ;;
    s' <- get ;;
    print (showing_line (List.length recent) (get_entry_count s')).

(** [check_status(ollama_mgr, storage)] *)
Definition check_status (ollama_mgr : OllamaManager) : M unit :=
  print (NL ++ Colors.BOLD ++ Colors.BLUE ++ RULE ++ lit " SYSTEM STATUS "
         ++ RULE ++ Colors.END ++ NL) ;;
  ollama_status <- check_availability ;;
  (if ollama_status
   then
     print (Colors.GREEN ++ [0x2705] ++ lit " Ollama: Running" ++ Colors.END) ;;
     print (lit "   " ++ Colors.CYAN ++ lit "Model: " ++ om_model ollama_mgr
            ++ Colors.END) ;;
     print (lit "   " ++ Colors.CYAN ++ lit "Host: localhost:11434"
            ++ Colors.END)
   else
     print (Colors.RED ++ [0x274C] ++ lit " Ollama: Not Running"
            ++ Colors.END) ;;
     print (lit "   " ++ Colors.YELLOW ++ lit "Start with: ollama serve"
            ++ Colors.END)) ;;
  print (NL ++ Colors.GREEN ++ [0x2705] ++ lit " Storage: Encrypted"
         ++ Colors.END) ;;
  print (lit "   " ++ Colors.CYAN ++ lit "Location: " ++ data_dir_text
         ++ Colors.END) ;;
  s <- get ;;
  print (lit "   " ++ Colors.CYAN ++ lit "Entries: "
         ++ str_of_nat (get_entry_count s) ++ Colors.END) ;;
  print (lit "   " ++ Colors.CYAN ++ lit "Encryption: AES-128 (Fernet)"
         ++ Colors.END) ;;
  print (NL ++ Colors.GREEN ++ [0x2705] ++ lit " Privacy: Protected"
         ++ Colors.END) ;;
  print (lit "   " ++ Colors.CYAN ++ lit "100% Local Processing"
         ++ Colors.END) ;;
  print (lit "   " ++ Colors.CYAN ++ lit "No Cloud Connection"
         ++ Colors.END) ;;
  print (lit "   " ++ Colors.CYAN ++ lit "No Tracking or Telemetry"
         ++ Colors.END).

(** [os.system('clear' if os.name != 'nt' else 'cls')] *)
Definition clear_screen : M unit :=
  modify (fun s => set_stdout (stdout s ++ [clear_text]) s).

Definition select_prompt : str :=
  Colors.BOLD ++ lit "Select option [1-4]:" ++ Colors.END ++ lit " ".

Definition press_enter_prompt : str :=
  NL ++ Colors.BOLD ++ lit "Press ENTER to continue..." ++ Colors.END.

Definition invalid_option_line : str :=
  NL ++ Colors.RED ++ lit "Invalid option. Please choose 1-4." ++ Colors.END.

Definition error_line (e : exn) : str :=
  NL ++ Colors.RED ++ lit "Error: " ++ exn_str e ++ Colors.END.

(** The end of a turn that goes on: wait for ENTER, clear, banner. *)
Definition resume : M turn :=
  input_prompt press_enter_prompt ;;
  clear_screen ;;
  print_banner ;;
  ret Continue.

Definition farewell_line : str :=
  NL ++ Colors.CYAN ++ [0x1F44B] ++ lit " Thank you for using Privacy Diary!"
  ++ Colors.END.

Definition safe_line : str :=
  Colors.CYAN ++ lit "Your entries are safe and encrypted." ++ Colors.END
  ++ NL.

Definition goodbye_line : str :=
  NL ++ NL ++ Colors.CYAN ++ [0x1F44B] ++ lit " Goodbye!" ++ Colors.END
  ++ NL.

(** One turn of [while True] in [main()], with its two handlers.
    [interrupted] tells whether the interrupt key is hit during the
    turn; the model has it hit while the loop waits for the choice.
    [KeyboardInterrupt] is no [Exception]: it reaches the handler of its
    own, which says goodbye and leaves through [sys.exit(0)]. *)
Definition main_turn (encryption : EncryptionManager)
           (ollama : OllamaManager) (interrupted : bool) : M turn :=
  print_menu ;;
  if interrupted then
    modify (fun s => set_stdout (stdout s ++ [select_prompt]) s) ;;
    print goodbye_line ;;
    ret (Exit 0)
  else
    try_except
      (line <- input_prompt select_prompt ;;
       let choice := strip line in
       if str_eqb choice (lit "1") then
         write_entry encryption ollama ;; resume
       else if str_eqb choice (lit "2") then
         view_recent_entries ;; resume
       else if str_eqb choice (lit "3") then
         check_status ollama ;; resume
       else if str_eqb choice (lit "4") then
         print farewell_line ;;
         print safe_line ;;
         ret (Exit 0)
       else
         print invalid_option_line ;; resume)
      (fun e => print (error_line e) ;; ret Continue).

(** The loop, for at most [turns] turns: the exit code, or [None] when
    the loop is still going after that many.  [signal n] tells whether
    the interrupt key is hit during the turn that is [n] turns ahead. *)
Fixpoint main_loop (encryption : EncryptionManager) (ollama : OllamaManager)
         (signal : nat -> bool) (turns : nat) : M (option Z) :=
  match turns with
  | O => ret None
  | S more =>
      t <- main_turn encryption ollama (signal O) ;;
      match t with
      | Exit code => ret (Some code)
      | Continue =>
          main_loop encryption ollama (fun n => signal (S n)) more
      end
  end.

(** [main()] *)
Definition main (signal : nat -> bool) (turns : nat) : M (option Z) :=
  encryption <- EncryptionManager_init ;;
  DiaryStorage_init encryption ;;
  ollama <- OllamaManager_init DEFAULT_MODEL ;;
  clear_screen ;;
  print_banner ;;
  main_loop encryption ollama signal turns.

End Shell.

(** The first line that [view_recent_entries] prints. *)
Definition view_header : str :=
  (NL ++ Colors.BOLD ++ Colors.BLUE ++ RULE ++ lit " RECENT ENTRIES "
   ++ RULE ++ Colors.END ++ NL) ++ NL.

(** A timestamp that [datetime.fromisoformat] accepts. *)
Definition well_dated {P : Platform} (item : str * str) : Prop :=
  exists date_str, format_timestamp (fst item) = ok date_str.

(** The three lines of the listing for the [i]-th entry shown: its number
    and date, its preview, an empty line. *)
Definition entry_lines {P : Platform} (i : nat) (item : str * str)
  : list str :=
  match format_timestamp (fst item) with
  | inr date_str =>
      [(Colors.BOLD ++ str_of_nat i ++ lit ". " ++ date_str ++ Colors.END)
       ++ NL;
       (Colors.CYAN ++ preview (snd item) ++ Colors.END) ++ NL;
       NL]
  | inl _ => []
  end.

(** The listing of some entries, numbered from [i]. *)
Fixpoint listing {P : Platform} (i : nat) (items : list (str * str))
  : list str :=
  match items with
  | [] => []
  | item :: rest => entry_lines i item ++ listing (S i) rest
  end.

(** The banner as it reaches the screen. *)
Definition banner_text : str :=
  (NL ++ Colors.BOLD ++ Colors.CYAN ++ [0x2554] ++ repeat 0x2550 58
   ++ [0x2557] ++ NL ++ [0x2551] ++ lit "         " ++ [0x1F512]
   ++ lit "  THE PRIVACY DIARY - TERMINAL EDITION        " ++ [0x2551]
   ++ NL ++ [0x255A] ++ repeat 0x2550 58 ++ [0x255D] ++ Colors.END ++ NL
   ++ NL ++ Colors.BOLD ++ lit "100% Local " ++ [0x2022]
   ++ lit " Fully Encrypted " ++ [0x2022] ++ lit " Offline AI"
   ++ Colors.END ++ NL) ++ NL.

(** The menu as it reaches the screen. *)
Definition menu_text : str :=
  (NL ++ Colors.BOLD ++ lit "MAIN MENU:" ++ Colors.END ++ NL
   ++ lit "  " ++ Colors.GREEN ++ lit "1." ++ Colors.END
   ++ lit " Write new entry" ++ NL
   ++ lit "  " ++ Colors.GREEN ++ lit "2." ++ Colors.END
   ++ lit " View recent entries" ++ NL
   ++ lit "  " ++ Colors.GREEN ++ lit "3." ++ Colors.END
   ++ lit " Check system status" ++ NL
   ++ lit "  " ++ Colors.GREEN ++ lit "4." ++ Colors.END
   ++ lit " Exit" ++ NL ++ NL) ++ NL.

Definition end_of_input : exn := Exc EOFError (lit "EOF when reading a line").

(** What one turn writes when standard input has ended: the menu, the
    prompt, the error of the read that failed. *)
Definition turn_at_end_of_input : list str :=
  [menu_text; select_prompt;
   (NL ++ Colors.RED ++ lit "Error: " ++ lit "EOF when reading a line"
    ++ Colors.END) ++ NL].

(** The output of [n] such turns. *)
Fixpoint turns_at_end_of_input (n : nat) : list str :=
  match n with
  | O => []
  | S more => turn_at_end_of_input ++ turns_at_end_of_input more
  end.

(** A menu choice that is none of the four. *)
Definition unknown_choice (choice : str) : Prop :=
  choice <> lit "1" /\ choice <> lit "2" /\ choice <> lit "3"
  /\ choice <> lit "4".

(** *** Relations between the state before and after a run *)

(** A computation keeps a relation when every run of it, returning or
    raising, leaves a state related to the one it started from. *)
Definition keeps (I : State -> State -> Prop) {A} (m : M A) : Prop :=
  forall s, I s (snd (m s)).

(** The diary is as it was: the mapping in memory, the disk, the clock
    and the random source. *)
Definition same_diary (s s' : State) : Prop :=
  entries s' = entries s /\ fs s' = fs s /\ io_fault s' = io_fault s /\
  umask s' = umask s /\ clock s' = clock s /\ ticks s' = ticks s /\
  entropy s' = entropy s.

(** Nothing was read from the terminal. *)
Definition same_input (s s' : State) : Prop := stdin s' = stdin s.

(** The model server was not called. *)
Definition same_server (s s' : State) : Prop :=
  requests s' = requests s /\ is_available s' = is_available s /\
  server s' = server s.

Module Demo2.

Definition platform : Platform := {|
  format_timestamp := fun t =>
    if (List.length t =? 19)%nat then ok (lit "on " ++ t)
    else err (Exc ValueError (lit "Invalid isoformat string"));
  clear_text := 27 :: lit "[H";
  data_dir_text := lit "/home/user/.privacy_diary"
|}.

Definition default_model : OllamaManager := {| om_model := DEFAULT_MODEL |}.

(** A server that is up and answers every chat with the same words. *)
Definition kind : Server := {|
  list_reply := fun _ => None;
  chat_reply := fun _ _ _ => ok (Some (lit "  You are doing well. "))
|}.

Definition with_server (v : Server) (s : State) : State :=
  mkState (fs s) (io_fault s) (umask s) (clock s) (ticks s) (entropy s)
          (stdin s) (stdout s) v (requests s) (entries s) (is_available s).

(** A disk that holds a store of one entry and refuses to open it for
    writing. *)
Definition locked : State :=
  mkState (fs (Demo.with_store (Demo.token_of Demo.one_entry_text)))
          (fun op =>
             match op with
             | OpenWrite ENTRIES_FILE =>
                 Some (Exc OSError (lit "[Errno 13] Permission denied"))
             | _ => None
             end)
          (umask Demo.fresh) (clock Demo.fresh) 0 0 [] [] Demo.silent 0
          [] false.

(** The diary of three entries, a year on. *)
Definition next_year : State :=
  mkState (fs Demo.fresh) (io_fault Demo.fresh) (umask Demo.fresh)
          (fun _ => lit "2025-06-01T12:00:00") 0 0 [] [] Demo.silent 0
          Demo.three_entries false.

(** A diary with one key that is no timestamp. *)
Definition scribbled : State :=
  set_entries [(lit "2024-01-03T07:30:00", lit "third");
               (lit "1999", lit "an old note")] Demo.fresh.

(** What is typed: a state like [Demo.fresh] with these lines waiting. *)
Definition typed (lines : list str) : State := set_stdin lines Demo.fresh.

(** A key file that is not a Fernet key. *)
Definition bad_key : State :=
  set_fs (fun p => match p with
                   | KEY_FILE => Some (File (lit "not a key") (octal [6; 4; 4]))
                   | ENTRIES_FILE => None
                   end) Demo.fresh.

End Demo2.

(* ------------------------------------------------------------------ *)
(** ** Properties *)

Section Checks.

Example utf8_of_euro_sign : utf8_encode [0x20AC] = Some [0xE2; 0x82; 0xAC].
Proof. reflexivity. Qed.

Example utf8_of_grinning_face :
  utf8_encode [0x1F600] = Some [0xF0; 0x9F; 0x98; 0x80].
Proof. reflexivity. Qed.

Example utf8_rejects_overlong_nul : utf8_decode [0xC0; 0x80] = None.
Proof. reflexivity. Qed.

Example utf8_rejects_encoded_surrogate : utf8_decode [0xED; 0xA0; 0x80] = None.
Proof. reflexivity. Qed.

Example utf8_rejects_truncated : utf8_decode [0xE2; 0x82] = None.
Proof. reflexivity. Qed.

Example strip_keeps_inner_space : strip (lit "  a b  ") = lit "a b".
Proof. reflexivity. Qed.

Example split_drops_runs_of_space :
  split (lit " one  two ") = [lit "one"; lit "two"].
Proof. reflexivity. Qed.

Example join_puts_newlines_between :
  join NL [lit "a"; []; lit "b"] = lit "a" ++ NL ++ NL ++ lit "b".
Proof. reflexivity. Qed.

Example upper_of_mixed_case :
  upper (R := Demo.runtime) (lit "eNd") = lit "END".
Proof. reflexivity. Qed.

Example iso_timestamps_compare_as_dates :
  str_ltb (lit "2024-01-02T09:00:00") (lit "2024-01-03T07:30:00") = true.
Proof. reflexivity. Qed.

Example slice_with_negative_stop : slice_to [1; 2; 3] (-1) = [1; 2].
Proof. reflexivity. Qed.

Example slice_beyond_the_end : slice_to [1; 2; 3] 10 = [1; 2; 3].
Proof. reflexivity. Qed.

Example owner_read_write : octal [6; 0; 0] = 256 + 128.
Proof. reflexivity. Qed.

Example word_count_in_decimal : str_of_nat 12 = lit "12".
Proof. reflexivity. Qed.

End Checks.

Section Utf8.

(** Name the base-64 digits of a code point, so that what is left is
    linear arithmetic. *)
Ltac name_digits :=
  repeat match goal with
         | |- context [?x mod 64] =>
             let q := fresh "q" in
             let r := fresh "r" in
             pose proof (Z.div_mod x 64 ltac:(lia));
             pose proof (Z.mod_pos_bound x 64 ltac:(lia));
             set (q := x / 64) in *; set (r := x mod 64) in *;
             clearbody q r
         end.

(** Decide every comparison of the goal from the arithmetic context. *)
Ltac settle_tests :=
  repeat match goal with
         | |- context [?a <=? ?b] =>
             destruct (Z.leb_spec a b); try (exfalso; lia)
         | |- context [?a <? ?b] =>
             destruct (Z.ltb_spec a b); try (exfalso; lia)
         end.

Ltac split_tests H :=
  repeat match type of H with
         | context [if ?t then _ else _] =>
             let E := fresh "E" in destruct t eqn:E
         end.

Ltac reflect_tests :=
  repeat match goal with
         | E : (_ && _) = false |- _ => apply andb_false_iff in E
         | E : (_ && _) = true |- _ => apply andb_true_iff in E; destruct E
         | E : (_ <? _) = _ |- _ =>
             first [apply Z.ltb_lt in E | apply Z.ltb_ge in E]
         | E : (_ <=? _) = _ |- _ =>
             first [apply Z.leb_le in E | apply Z.leb_gt in E]
         end.

Lemma utf8_decode_cons (b0 : Z) (r0 : bytes) :
  utf8_decode (b0 :: r0) =
  if (0 <=? b0) && (b0 <? 0x80) then option_map (cons b0) (utf8_decode r0)
  else if (0xC2 <=? b0) && (b0 <=? 0xDF) then
    match r0 with
    | b1 :: r1 =>
        if is_cont b1
        then option_map (cons ((b0 - 0xC0) * 64 + (b1 - 0x80))) (utf8_decode r1)
        else None
    | _ => None
    end
  else if (0xE0 <=? b0) && (b0 <=? 0xEF) then
    match r0 with
    | b1 :: b2 :: r2 =>
        let c := (b0 - 0xE0) * 4096 + (b1 - 0x80) * 64 + (b2 - 0x80) in
        if is_cont b1 && is_cont b2 && (0x800 <=? c) && negb (is_surrogate c)
        then option_map (cons c) (utf8_decode r2)
        else None
    | _ => None
    end
  else if (0xF0 <=? b0) && (b0 <=? 0xF4) then
    match r0 with
    | b1 :: b2 :: b3 :: r3 =>
        let c := (b0 - 0xF0) * 262144 + (b1 - 0x80) * 4096
                 + (b2 - 0x80) * 64 + (b3 - 0x80) in
        if is_cont b1 && is_cont b2 && is_cont b3
           && (0x10000 <=? c) && (c <=? 0x10FFFF)
        then option_map (cons c) (utf8_decode r3)
        else None
    | _ => None
    end
  else None.
Proof. reflexivity. Qed.

Lemma utf8_decode_encode_char (c : char) (b rest : bytes) :
  utf8_encode_char c = Some b ->
  utf8_decode (b ++ rest) = option_map (cons c) (utf8_decode rest).
Proof.
  unfold utf8_encode_char, is_surrogate. intros H.
  assert (D2 : c / 4096 = c / 64 / 64)
    by (rewrite Z.div_div by lia; reflexivity).
  assert (D3 : c / 262144 = c / 64 / 64 / 64)
    by (rewrite !Z.div_div by lia; reflexivity).
  split_tests H; try discriminate;
    match type of H with
    | Some ?x = Some _ => assert (Hb : b = x) by congruence; subst b; clear H
    end; reflect_tests;
    cbn [app]; rewrite utf8_decode_cons; unfold is_cont, is_surrogate;
    rewrite ?D3, ?D2; clear D2 D3; name_digits;
    cbv zeta; settle_tests; cbn [andb negb]; f_equal; f_equal; lia.
Qed.

Lemma utf8_decode_encode (s : str) (b : bytes) :
  utf8_encode s = Some b -> utf8_decode b = Some s.
Proof.
  revert b. induction s as [|c t IH]; intros b; cbn [utf8_encode].
  - intros H. inversion H. reflexivity.
  - destruct (utf8_encode_char c) as [bc|] eqn:Ec; [|discriminate].
    destruct (utf8_encode t) as [bt|] eqn:Et; [|discriminate].
    intros H. inversion H; subst.
    rewrite (utf8_decode_encode_char _ _ Ec), (IH bt eq_refl). reflexivity.
Qed.

Lemma utf8_encode_char_scalar (c : char) :
  is_scalar c -> exists b, utf8_encode_char c = Some b.
Proof.
  unfold is_scalar, is_codepoint, utf8_encode_char. intros [Hc Hs]. rewrite Hs.
  repeat match goal with
         | |- context [if ?t then _ else _] =>
             let E := fresh "E" in destruct t eqn:E
         end; eauto; exfalso; reflect_tests; lia.
Qed.

Lemma utf8_encode_total (s : str) :
  Forall is_scalar s -> exists b, utf8_encode s = Some b.
Proof.
  induction 1 as [|c t Hc _ [bt Ht]]; cbn [utf8_encode]; eauto.
  destruct (utf8_encode_char_scalar Hc) as [bc ->]. rewrite Ht. eauto.
Qed.

Lemma utf8_encode_surrogate (s : str) :
  Exists (fun c => is_surrogate c = true) s -> utf8_encode s = None.
Proof.
  induction 1 as [c t Hc | c t _ IH]; cbn [utf8_encode].
  - unfold utf8_encode_char. rewrite Hc.
    unfold is_surrogate in Hc. apply andb_true_iff in Hc as [H1 H2].
    apply Z.leb_le in H1. apply Z.leb_le in H2.
    destruct (Z.ltb_spec c 0); [reflexivity|].
    destruct (Z.ltb_spec c 128); [lia|].
    destruct (Z.ltb_spec c 2048); [lia|].
    destruct (Z.ltb_spec c 65536); [reflexivity | lia].
  - rewrite IH. destruct (utf8_encode_char c); reflexivity.
Qed.

End Utf8.

(* ------------------------------------------------------------------ *)
(** ** Order on strings, sorting and slicing *)

Section Order.

Lemma str_eqb_eq (a b : str) : str_eqb a b = true <-> a = b.
Proof.
  unfold str_eqb. destruct (list_eq_dec Z.eq_dec a b); split;
    congruence.
Qed.

Lemma str_eqb_neq (a b : str) : str_eqb a b = false <-> a <> b.
Proof.
  unfold str_eqb. destruct (list_eq_dec Z.eq_dec a b); split;
    congruence.
Qed.

Lemma str_eqb_refl (a : str) : str_eqb a a = true.
Proof. apply str_eqb_eq. reflexivity. Qed.

Lemma str_ltb_irrefl (a : str) : str_ltb a a = false.
Proof.
  induction a as [|x a IH]; cbn; [reflexivity|].
  rewrite Z.ltb_irrefl. exact IH.
Qed.

Lemma str_ltb_trans (a b c : str) :
  str_ltb a b = true -> str_ltb b c = true -> str_ltb a c = true.
Proof.
  revert b c. induction a as [|x a IH]; intros [|y b] [|z c]; cbn;
    try congruence.
  destruct (Z.ltb_spec x y), (Z.ltb_spec y x), (Z.ltb_spec y z),
    (Z.ltb_spec z y), (Z.ltb_spec x z), (Z.ltb_spec z x);
    try congruence; try lia.
  apply IH.
Qed.

Lemma str_ltb_total (a b : str) :
  a <> b -> str_ltb a b = true \/ str_ltb b a = true.
Proof.
  revert b. induction a as [|x a IH]; intros [|y b] Hne; cbn; auto;
    try (exfalso; apply Hne; reflexivity).
  destruct (Z.ltb_spec x y), (Z.ltb_spec y x); auto; try lia.
  assert (x = y) by lia. subst. apply IH. congruence.
Qed.

Lemma item_ltb_keys (p q : str * str) :
  fst p <> fst q -> item_ltb p q = str_ltb (fst p) (fst q).
Proof.
  intros Hne. unfold item_ltb.
  apply str_eqb_neq in Hne. rewrite Hne. reflexivity.
Qed.

Lemma insert_desc_In (x y : str * str) (l : list (str * str)) :
  In y (insert_desc x l) <-> y = x \/ In y l.
Proof.
  induction l as [|z t IH]; cbn.
  - intuition congruence.
  - destruct (item_ltb x z); cbn; rewrite ?IH; intuition congruence.
Qed.

Lemma insert_desc_length (x : str * str) (l : list (str * str)) :
  List.length (insert_desc x l) = S (List.length l).
Proof.
  induction l as [|z t IH]; cbn; [reflexivity|].
  destruct (item_ltb x z); cbn; congruence.
Qed.

Lemma sorted_reverse_In (y : str * str) (l : list (str * str)) :
  In y (sorted_reverse l) <-> In y l.
Proof.
  induction l as [|x t IH]; cbn; [tauto|].
  rewrite insert_desc_In, IH. intuition congruence.
Qed.

Lemma sorted_reverse_length (l : list (str * str)) :
  List.length (sorted_reverse l) = List.length l.
Proof.
  induction l as [|x t IH]; cbn; [reflexivity|].
  rewrite insert_desc_length. congruence.
Qed.

Lemma insert_desc_sorted (x : str * str) (l : list (str * str)) :
  StronglySorted key_gt l ->
  (forall y, In y l -> fst y <> fst x) ->
  StronglySorted key_gt (insert_desc x l).
Proof.
  induction 1 as [|z t Ht IH Hz]; intros Hx; cbn.
  - repeat constructor.
  - assert (Hzx : fst x <> fst z)
      by (intros E; apply (Hx z); [left; reflexivity | congruence]).
    rewrite (item_ltb_keys _ _ Hzx).
    destruct (str_ltb (fst x) (fst z)) eqn:Hlt.
    + constructor.
      * apply IH. intros y Hy. apply Hx. right. exact Hy.
      * apply Forall_forall. intros y Hy. apply insert_desc_In in Hy.
        destruct Hy as [-> | Hy]; [exact Hlt|].
        rewrite Forall_forall in Hz. apply Hz. exact Hy.
    + destruct (str_ltb_total Hzx) as [H | H]; [congruence|].
      constructor; [constructor; assumption|].
      constructor; [exact H|].
      apply Forall_forall. intros y Hy. rewrite Forall_forall in Hz.
      unfold key_gt. apply str_ltb_trans with (fst z); [|exact H].
      apply Hz. exact Hy.
Qed.

Lemma sorted_reverse_sorted (d : dict) :
  dict_ok d -> StronglySorted key_gt (sorted_reverse d).
Proof.
  unfold dict_ok, keys. induction d as [|x t IH]; cbn; intros Hd.
  - constructor.
  - inversion Hd as [|? ? Hx Ht]; subst.
    apply insert_desc_sorted; [apply IH; exact Ht|].
    intros y Hy E. apply Hx. rewrite <- E.
    apply in_map. apply sorted_reverse_In. exact Hy.
Qed.

Lemma firstn_In {A} (n : nat) (l : list A) (y : A) :
  In y (firstn n l) -> In y l.
Proof.
  intros H. rewrite <- (firstn_skipn n l). apply in_or_app. left. exact H.
Qed.

Lemma firstn_sorted (n : nat) (l : list (str * str)) :
  StronglySorted key_gt l -> StronglySorted key_gt (firstn n l).
Proof.
  intros H. revert n. induction H as [|x t Ht IH Hx]; intros [|n]; cbn;
    try constructor.
  - apply IH.
  - rewrite Forall_forall in *. intros y Hy. apply Hx.
    revert Hy. apply firstn_In.
Qed.

Lemma slice_to_incl {A} (l : list A) (n : Z) : incl (slice_to l n) l.
Proof.
  unfold slice_to. destruct (0 <=? n); intros y; apply firstn_In.
Qed.

Lemma slice_to_length {A} (l : list A) (n : Z) :
  Z.of_nat (List.length (slice_to l n)) =
  if 0 <=? n then Z.min n (Z.of_nat (List.length l))
  else Z.max 0 (Z.of_nat (List.length l) + n).
Proof.
  unfold slice_to. destruct (Z.leb_spec 0 n); rewrite length_firstn; lia.
Qed.

Lemma dict_get_set_same (k v : str) (d : dict) :
  dict_get k (dict_set k v d) = Some v.
Proof.
  induction d as [|[k' v'] t IH]; cbn.
  - rewrite str_eqb_refl. reflexivity.
  - destruct (str_eqb k' k) eqn:E; cbn; rewrite E; [reflexivity | exact IH].
Qed.

Lemma dict_get_set_other (k k' v : str) (d : dict) :
  k' <> k -> dict_get k' (dict_set k v d) = dict_get k' d.
Proof.
  intros Hne. induction d as [|[k0 v0] t IH]; cbn.
  - apply not_eq_sym in Hne. apply str_eqb_neq in Hne. rewrite Hne.
    reflexivity.
  - destruct (str_eqb k0 k) eqn:E; cbn.
    + apply str_eqb_eq in E. subst k0.
      apply not_eq_sym in Hne. apply str_eqb_neq in Hne. rewrite Hne.
      reflexivity.
    + rewrite IH. reflexivity.
Qed.

Lemma dict_set_set (k a b : str) (d : dict) :
  dict_set k b (dict_set k a d) = dict_set k b d.
Proof.
  induction d as [|[k' v'] t IH]; cbn.
  - rewrite str_eqb_refl. reflexivity.
  - destruct (str_eqb k' k) eqn:E; cbn; rewrite E; [reflexivity|].
    rewrite IH. reflexivity.
Qed.

Lemma dict_set_keys_In (k k' v : str) (d : dict) :
  In k' (keys (dict_set k v d)) <-> k' = k \/ In k' (keys d).
Proof.
  unfold keys. induction d as [|[k0 v0] t IH]; cbn.
  - intuition congruence.
  - destruct (str_eqb k0 k) eqn:E; cbn.
    + apply str_eqb_eq in E. subst k0. intuition congruence.
    + rewrite IH. intuition congruence.
Qed.

Lemma dict_set_ok (k v : str) (d : dict) :
  dict_ok d -> dict_ok (dict_set k v d).
Proof.
  unfold dict_ok. induction d as [|[k0 v0] t IH]; cbn; intros Hd.
  - repeat constructor. intros [].
  - inversion Hd as [|? ? Hk Ht]; subst.
    destruct (str_eqb k0 k) eqn:E; cbn; [exact Hd|].
    constructor; [|apply IH; exact Ht].
    intros Hin. apply dict_set_keys_In in Hin. destruct Hin as [-> | Hin].
    + rewrite str_eqb_refl in E. discriminate.
    + apply Hk. exact Hin.
Qed.

Lemma dict_get_In (k v : str) (d : dict) :
  dict_ok d -> In (k, v) d -> dict_get k d = Some v.
Proof.
  unfold dict_ok. induction d as [|[k0 v0] t IH]; cbn; intros Hd Hin.
  - destruct Hin.
  - inversion Hd as [|? ? Hk Ht]; subst. destruct Hin as [E | Hin].
    + injection E as -> ->. rewrite str_eqb_refl. reflexivity.
    + destruct (str_eqb k0 k) eqn:E.
      * apply str_eqb_eq in E. subst k0. exfalso. apply Hk.
        change k with (fst (k, v)). apply in_map. exact Hin.
      * apply IH; assumption.
Qed.

Lemma dict_set_others (k v : str) (d : dict) :
  others k (dict_set k v d) = others k d.
Proof.
  unfold others. induction d as [|[k0 v0] t IH]; cbn.
  - rewrite str_eqb_refl. reflexivity.
  - destruct (str_eqb k0 k) eqn:E; cbn; rewrite E; cbn; [reflexivity|].
    rewrite IH. reflexivity.
Qed.

End Order.


(* ------------------------------------------------------------------ *)
(** ** The demo instance is a lawful cipher *)

Lemma demo_fernet_correct : fernet_correct Demo.fernet.
Proof.
  intros c n m. cbn. unfold ok. f_equal. rewrite map_map.
  rewrite <- (map_id m) at 2. apply map_ext. intros b. unfold Demo.mask.
  rewrite Z.lxor_assoc, Z.lxor_nilpotent. apply Z.lxor_0_r.
Qed.

(** Run the monadic combinators and the state accessors, and nothing else:
    strings and numbers stay as they are written. *)
Ltac run :=
  cbv beta iota zeta delta
      [bind try_except lift ret raise get modify print input input_prompt
       exists_ read_file write_file chmod draw now_isoformat ok err negb];
  cbn [fs io_fault umask clock ticks entropy stdin stdout server requests
       entries is_available fs_put path_eqb
       set_fs set_ticks set_entropy set_stdin set_stdout set_requests
       set_entries set_is_available].

Ltac scalars :=
  repeat constructor; unfold is_codepoint; cbn; lia.

Ltac distinct_keys :=
  unfold dict_ok; vm_compute;
  repeat (constructor; [cbn; intuition discriminate|]); constructor.

(* ------------------------------------------------------------------ *)
(** ** EncryptionManager *)

Section Encryption.

Context {R : PyRuntime} {F : FernetLib}.

Lemma str_encode_scalar (data : str) :
  Forall is_scalar data -> exists b, str_encode data = ok b /\ utf8_decode b = Some data.
Proof.
  intros H. destruct (utf8_encode_total H) as [b Hb].
  exists b. unfold str_encode. rewrite Hb. split; [reflexivity|].
  apply utf8_decode_encode. exact Hb.
Qed.

(** C1: for every text, a string of Unicode scalar values, the empty
    string and multi-line text included, [encrypt] gives a token and
    [decrypt] of that token gives the string back exactly; Fernet is taken
    to decrypt what it encrypted.  (A string that holds a lone surrogate
    code point is no text: on it [encrypt] raises [UnicodeEncodeError].) *)
Theorem encrypt_decrypt_round_trip
        (self : EncryptionManager) (data : str) (s : State) :
  fernet_correct F ->
  (Forall is_scalar data -> roundtrips self data s) /\
  (Exists (fun c => is_surrogate c = true) data ->
   encrypt self data s
   = (err (Exc UnicodeEncodeError (encode_error_text data)), s)).
Proof.
  intros HF. split.
  - intros Hs. destruct (str_encode_scalar Hs) as (b & Hb & Hd).
    exists (fernet_encrypt (em_cipher self) (entropy s) b),
           (set_entropy (S (entropy s)) s).
    split.
    + unfold encrypt, bind, lift, draw, ret. rewrite Hb. reflexivity.
    + unfold decrypt. rewrite HF. cbn. unfold bytes_decode. rewrite Hd.
      reflexivity.
  - intros Hs. unfold encrypt, bind, lift, str_encode.
    rewrite (utf8_encode_surrogate Hs). reflexivity.
Qed.

End Encryption.

Lemma encrypt_decrypt_round_trip_witness :
  roundtrips (R := Demo.runtime) Demo.manager [] Demo.fresh /\
  roundtrips (R := Demo.runtime) Demo.manager
             (lit "Dear diary," ++ NL ++ [233; 0x1F600] ++ lit " line two")
             Demo.fresh /\
  encrypt (R := Demo.runtime) Demo.manager [0xDC00] Demo.fresh
  = (err (Exc UnicodeEncodeError (lit "surrogates not allowed")), Demo.fresh).
Proof.
  split; [|split].
  - apply (@encrypt_decrypt_round_trip Demo.runtime Demo.fernet
             Demo.manager [] Demo.fresh demo_fernet_correct).
    constructor.
  - apply (@encrypt_decrypt_round_trip Demo.runtime Demo.fernet
             Demo.manager _ Demo.fresh demo_fernet_correct).
    scalars.
  - apply (@encrypt_decrypt_round_trip Demo.runtime Demo.fernet
             Demo.manager [0xDC00] Demo.fresh demo_fernet_correct).
    left. reflexivity.
Defined.

(* ------------------------------------------------------------------ *)
(** ** DiaryStorage.get_recent_entries *)

Section Recent.

(** C2: over a store whose keys are distinct, the entries that
    [get_recent_entries(n)] returns are entries of the store in strictly
    descending order of timestamp; for a limit [n >= 0] there are
    [min(n, count)] of them; on an empty store the result is empty.  (For
    a negative [n], which is no limit, the slice leaves
    [max(0, count + n)] of them.) *)
Theorem recent_entries_order_and_length (s : State) (n : Z) :
  dict_ok (entries s) ->
  StronglySorted key_gt (get_recent_entries s n) /\
  incl (get_recent_entries s n) (entries s) /\
  Z.of_nat (List.length (get_recent_entries s n))
  = (if 0 <=? n then Z.min n (Z.of_nat (get_entry_count s))
     else Z.max 0 (Z.of_nat (get_entry_count s) + n)) /\
  (get_entry_count s = 0%nat -> get_recent_entries s n = []).
Proof.
  intros Hd. unfold get_recent_entries, get_entry_count.
  repeat split.
  - unfold slice_to. destruct (0 <=? n); apply firstn_sorted;
      apply sorted_reverse_sorted; exact Hd.
  - intros y Hy. apply sorted_reverse_In. revert Hy. apply slice_to_incl.
  - rewrite slice_to_length, sorted_reverse_length. reflexivity.
  - intros H0. destruct (entries s); [|discriminate].
    unfold slice_to. destruct (0 <=? n); cbn; rewrite ?firstn_nil;
      reflexivity.
Qed.

End Recent.

Lemma recent_entries_order_and_length_witness :
  get_recent_entries Demo.diary 2
  = [(lit "2024-01-03T07:30:00", lit "third");
     (lit "2024-01-02T09:00:00", lit "second")] /\
  StronglySorted key_gt (get_recent_entries Demo.diary 2) /\
  get_recent_entries Demo.fresh 5 = [].
Proof.
  split; [reflexivity|]. split.
  - apply (@recent_entries_order_and_length Demo.diary 2). distinct_keys.
  - apply (@recent_entries_order_and_length Demo.fresh 5);
      [distinct_keys | reflexivity].
Defined.

(* ------------------------------------------------------------------ *)
(** ** EncryptionManager._load_or_create_key *)

Section Keys.

Context {R : PyRuntime} {F : FernetLib}.

Lemma load_existing_key (s : State) (f : file) :
  fs s KEY_FILE = Some f ->
  io_fault s (OpenRead KEY_FILE) = None ->
  _load_or_create_key s = (ok (f_data f), s).
Proof.
  intros Hf Hr. unfold _load_or_create_key, bind, exists_.
  rewrite Hf. cbn. unfold read_file. rewrite Hf, Hr. reflexivity.
Qed.

(** C4: when the key file exists and can be read, [_load_or_create_key]
    returns its bytes as they are, whatever they are, and changes nothing.
    When it does not exist and the system performs the write and the
    chmod, a key is made from a new draw of the random source and
    returned, the key file holds exactly that key with mode 0o600 and the
    store file is untouched; any later run on a disk that still holds this
    key file returns the same bytes. *)
Theorem load_or_create_key_spec (s : State) :
  (forall f, fs s KEY_FILE = Some f ->
             io_fault s (OpenRead KEY_FILE) = None ->
             _load_or_create_key s = (ok (f_data f), s)) /\
  (fs s KEY_FILE = None ->
   io_fault s (OpenWrite KEY_FILE) = None ->
   io_fault s (WriteData KEY_FILE) = None ->
   io_fault s (Chmod KEY_FILE) = None ->
   let key := generate_key (entropy s) in
   exists s',
     _load_or_create_key s = (ok key, s') /\
     entropy s' = S (entropy s) /\
     fs s' KEY_FILE = Some (File key (octal [6; 0; 0])) /\
     fs s' ENTRIES_FILE = fs s ENTRIES_FILE /\
     forall later : State,
       fs later KEY_FILE = fs s' KEY_FILE ->
       io_fault later (OpenRead KEY_FILE) = None ->
       _load_or_create_key later = (ok key, later)).
Proof.
  split; [intros f; apply load_existing_key|].
  intros Hf Hw Hd Hc key.
  unfold _load_or_create_key at 1.
  unfold bind, exists_. rewrite Hf. cbn.
  unfold write_file, chmod. cbn. rewrite Hf, Hw, Hd. cbn. rewrite Hc. cbn.
  eexists. split; [reflexivity|]. cbn. repeat split.
  intros later Hk Hr. cbn in Hk.
  exact (@load_existing_key later _ Hk Hr).
Qed.

End Keys.

Lemma load_or_create_key_spec_witness :
  _load_or_create_key (R := Demo.runtime) (F := Demo.fernet) (Demo.with_store [])
  = (ok Demo.key0, Demo.with_store []) /\
  exists s',
    _load_or_create_key (R := Demo.runtime) (F := Demo.fernet) Demo.fresh = (ok Demo.key0, s') /\
    fs s' KEY_FILE = Some (File Demo.key0 (octal [6; 0; 0])).
Proof.
  split.
  - apply (proj1 (@load_or_create_key_spec Demo.runtime Demo.fernet
                    (Demo.with_store []))
                 (File Demo.key0 (octal [6; 0; 0])));
      reflexivity.
  - destruct (proj2 (@load_or_create_key_spec Demo.runtime Demo.fernet
                       Demo.fresh)
                    eq_refl eq_refl eq_refl eq_refl)
      as (s' & Hrun & _ & Hkey & _).
    exists s'. split; assumption.
Defined.

(* ------------------------------------------------------------------ *)
(** ** DiaryStorage._load_entries *)

Section Load.

Context {R : PyRuntime} {F : FernetLib}.

(** C3: [_load_entries] never raises.  It returns the empty mapping when
    the store file is absent and when it is present and empty.  When the
    contents cannot be decrypted or decoded, when the decrypted text is
    not parsed by [json.loads], and when the file cannot be read, it
    prints the error and returns the empty mapping.  Otherwise it returns
    the mapping that [json.loads] makes of the decrypted contents. *)
Theorem load_entries_spec (encryption : EncryptionManager) (s : State) :
  (exists d s', _load_entries encryption s = (ok d, s')) /\
  (fs s ENTRIES_FILE = None -> _load_entries encryption s = (ok [], s)) /\
  (forall f,
      fs s ENTRIES_FILE = Some f ->
      io_fault s (OpenRead ENTRIES_FILE) = None ->
      (f_data f = [] -> _load_entries encryption s = (ok [], s)) /\
      (forall e,
          f_data f <> [] ->
          decrypt encryption (f_data f) = err e ->
          _load_entries encryption s = (ok [], load_report e s)) /\
      (forall text e,
          f_data f <> [] ->
          decrypt encryption (f_data f) = ok text ->
          json_loads text = err e ->
          _load_entries encryption s = (ok [], load_report e s)) /\
      (forall text d,
          f_data f <> [] ->
          decrypt encryption (f_data f) = ok text ->
          json_loads text = ok d ->
          _load_entries encryption s = (ok d, s))) /\
  (forall f e,
      fs s ENTRIES_FILE = Some f ->
      io_fault s (OpenRead ENTRIES_FILE) = Some e ->
      _load_entries encryption s = (ok [], load_report e s)).
Proof.
  unfold _load_entries, load_report. run.
  destruct (fs s ENTRIES_FILE) as [f|] eqn:Hf; run; rewrite ?Hf; run.
  - destruct (io_fault s (OpenRead ENTRIES_FILE)) as [e0|] eqn:Hr; run.
    + split; [do 2 eexists; reflexivity|]. split; [discriminate|]. split; [discriminate |].
      intros f' e [= <-] [= <-]. reflexivity.
    + destruct (f_data f) as [|b0 data] eqn:Hdata; run.
      * split; [do 2 eexists; reflexivity|]. split; [discriminate|]. split; [|discriminate].
        intros f' [= <-] _. rewrite Hdata.
        repeat split; try reflexivity; intros; congruence.
      * split.
        { destruct (decrypt encryption (b0 :: data)) as [e|text];
            [do 2 eexists; reflexivity|].
          destruct (json_loads text); do 2 eexists; reflexivity. }
        split; [discriminate|]. split; [|discriminate].
        intros f' [= <-] _. rewrite Hdata.
        repeat split; try discriminate.
        -- intros e _ ->. reflexivity.
        -- intros text e _ -> ->. reflexivity.
        -- intros text d _ -> ->. reflexivity.
  - split; [do 2 eexists; reflexivity|]. split; [reflexivity|]. split; discriminate.
Qed.

End Load.

Lemma load_entries_spec_witness :
  let load := _load_entries (R := Demo.runtime) Demo.manager in
  load Demo.fresh = (ok [], Demo.fresh) /\
  load (Demo.with_store []) = (ok [], Demo.with_store []) /\
  load (Demo.with_store [1; 2; 3])
  = (ok [], load_report (Exc InvalidToken []) (Demo.with_store [1; 2; 3])) /\
  load (Demo.with_store (Demo.token_of Demo.odd_text))
  = (ok [], load_report (Exc JSONDecodeError (lit "Expecting value"))
                        (Demo.with_store (Demo.token_of Demo.odd_text))) /\
  load (Demo.with_store (Demo.token_of Demo.one_entry_text))
  = (ok [(lit "2024-01-01T10:00:00", lit "hello")],
     Demo.with_store (Demo.token_of Demo.one_entry_text)).
Proof.
  intros load. unfold load. split; [|split; [|split; [|split]]].
  - apply (@load_entries_spec Demo.runtime Demo.fernet Demo.manager
             Demo.fresh). reflexivity.
  - refine (proj1 (proj1 (proj2 (proj2
             (@load_entries_spec Demo.runtime Demo.fernet Demo.manager
                (Demo.with_store []))))
             (File [] (octal [6; 0; 0])) eq_refl eq_refl) eq_refl).
  - refine (proj1 (proj2 (proj1 (proj2 (proj2
             (@load_entries_spec Demo.runtime Demo.fernet Demo.manager
                (Demo.with_store [1; 2; 3]))))
             (File [1; 2; 3] (octal [6; 0; 0])) eq_refl eq_refl))
             (Exc InvalidToken []) _ eq_refl).
    discriminate.
  - refine (proj1 (proj2 (proj2 (proj1 (proj2 (proj2
             (@load_entries_spec Demo.runtime Demo.fernet Demo.manager
                (Demo.with_store (Demo.token_of Demo.odd_text)))))
             (File (Demo.token_of Demo.odd_text) (octal [6; 0; 0]))
             eq_refl eq_refl)))
             Demo.odd_text (Exc JSONDecodeError (lit "Expecting value"))
             _ eq_refl eq_refl).
    discriminate.
  - refine (proj2 (proj2 (proj2 (proj1 (proj2 (proj2
             (@load_entries_spec Demo.runtime Demo.fernet Demo.manager
                (Demo.with_store (Demo.token_of Demo.one_entry_text)))))
             (File (Demo.token_of Demo.one_entry_text) (octal [6; 0; 0]))
             eq_refl eq_refl)))
             Demo.one_entry_text
             [(lit "2024-01-01T10:00:00", lit "hello")]
             _ eq_refl eq_refl).
    discriminate.
Defined.

(* ------------------------------------------------------------------ *)
(** ** DiaryStorage.save_entry *)

Section Save.

Context {R : PyRuntime} {F : FernetLib}.

Variable encryption : EncryptionManager.

Lemma write_file_store_same (data : bytes) (s : State) :
  same_process s (snd (write_file ENTRIES_FILE data s)).
Proof.
  unfold write_file, same_process.
  destruct (io_fault s (OpenWrite ENTRIES_FILE)); [cbn; tauto|].
  destruct (io_fault s (WriteData ENTRIES_FILE)); cbn; tauto.
Qed.

Lemma chmod_store_same (mode : Z) (s : State) :
  same_process s (snd (chmod ENTRIES_FILE mode s)).
Proof.
  unfold chmod, same_process.
  destruct (io_fault s (Chmod ENTRIES_FILE)); [cbn; tauto|].
  destruct (fs s ENTRIES_FILE); cbn; tauto.
Qed.

(** The run of [save_entry], step by step. *)
Lemma save_entry_run (content : str) (s : State) :
  let d := dict_set (clock s (ticks s)) content (entries s) in
  let s1 := set_entries d (set_ticks (S (ticks s)) s) in
  save_entry encryption content s =
  match json_dumps d with
  | inl e => (ok false, save_report e s1)
  | inr json_data =>
      match str_encode json_data with
      | inl e => (ok false, save_report e s1)
      | inr b =>
          let token := fernet_encrypt (em_cipher encryption) (entropy s) b in
          match write_file ENTRIES_FILE token
                           (set_entropy (S (entropy s)) s1) with
          | (inl e, s3) => (ok false, save_report e s3)
          | (inr _, s3) =>
              match chmod ENTRIES_FILE (octal [6; 0; 0]) s3 with
              | (inl e, s4) => (ok false, save_report e s4)
              | (inr _, s4) => (ok true, s4)
              end
          end
      end
  end.
Proof.
  intros d s1. unfold save_entry, encrypt, save_report.
  cbv beta iota zeta delta
      [bind try_except lift ret get modify print now_isoformat draw ok err].
  cbn [entries set_entries set_ticks entropy].
  fold d. fold s1.
  destruct (json_dumps d) as [e|json_data]; [reflexivity|].
  destruct (str_encode json_data) as [e|b]; [reflexivity|].
  destruct (write_file ENTRIES_FILE _ _) as [[e|[]] s3]; [reflexivity|].
  destruct (chmod ENTRIES_FILE _ s3) as [[e|[]] s4]; reflexivity.
Qed.

(** Whatever happens on the way to the disk, [save_entry] returns a
    boolean and the mapping in memory has the new entry. *)
Lemma save_entry_memory (content : str) (s : State) :
  exists saved s',
    save_entry encryption content s = (ok saved, s') /\
    entries s' = dict_set (clock s (ticks s)) content (entries s) /\
    clock s' = clock s /\ ticks s' = S (ticks s) /\ stdin s' = stdin s.
Proof.
  rewrite save_entry_run. cbv zeta.
  destruct (json_dumps _) as [e|json_data];
    [do 2 eexists; split; [reflexivity|]; cbn; tauto|].
  destruct (str_encode json_data) as [e|b];
    [do 2 eexists; split; [reflexivity|]; cbn; tauto|].
  match goal with
  | |- context [write_file ENTRIES_FILE ?t ?s0] =>
      pose proof (write_file_store_same t s0) as Hw;
        destruct (write_file ENTRIES_FILE t s0) as [[e|[]] s3]
  end; cbn [snd] in Hw; destruct Hw as (He & Hc & Ht & Hi & _).
  - do 2 eexists. split; [reflexivity|]. cbn. rewrite He, Hc, Ht, Hi. cbn.
    tauto.
  - pose proof (chmod_store_same (octal [6; 0; 0]) s3) as Hm.
    destruct (chmod ENTRIES_FILE (octal [6; 0; 0]) s3) as [[e|[]] s4];
      cbn [snd] in Hm; destruct Hm as (He' & Hc' & Ht' & Hi' & _);
      do 2 eexists; (split; [reflexivity|]); cbn;
      rewrite ?He', ?Hc', ?Ht', ?Hi', He, Hc, Ht, Hi; cbn; tauto.
Qed.

(** C5: when two successive [save_entry] calls read the same timestamp,
    the mapping afterwards is the one a single call with the later text
    would have made: under that timestamp it holds the later text, and no
    binding of that timestamp holds anything else. *)
Theorem colliding_appends_keep_later (a b : str) (s : State) :
  clock s (ticks s) = clock s (S (ticks s)) ->
  let timestamp := clock s (ticks s) in
  let s1 := snd (save_entry encryption a s) in
  let s2 := snd (save_entry encryption b s1) in
  entries s2 = dict_set timestamp b (entries s) /\
  dict_get timestamp (entries s2) = Some b /\
  (dict_ok (entries s) -> forall v, In (timestamp, v) (entries s2) -> v = b).
Proof.
  intros Hsame timestamp s1 s2.
  destruct (save_entry_memory a s) as (r1 & t1 & H1 & He1 & Hc1 & Ht1 & _).
  assert (Es1 : s1 = t1) by (unfold s1; rewrite H1; reflexivity).
  destruct (save_entry_memory b s1) as (r2 & t2 & H2 & He2 & _).
  assert (Es2 : s2 = t2) by (unfold s2; rewrite H2; reflexivity).
  assert (Hd : entries s2 = dict_set timestamp b (entries s)).
  { rewrite Es2, He2, Es1, He1, Hc1, Ht1, <- Hsame. apply dict_set_set. }
  split; [exact Hd|]. split.
  - rewrite Hd. apply dict_get_set_same.
  - intros Hok v Hin. rewrite Hd in Hin.
    apply dict_get_In in Hin; [|apply dict_set_ok; exact Hok].
    rewrite dict_get_set_same in Hin. congruence.
Qed.

(** C9: [save_entry] returns [True] or [False] and never raises.  An
    exception in the serialisation, in the encryption, or in opening,
    writing or chmod-ing the store file makes it return [False]; and when
    it returns [False] the mapping in memory already holds the new entry
    under its timestamp: nothing is rolled back. *)
Theorem save_entry_failure_keeps_entry (content : str) (s : State) :
  let timestamp := clock s (ticks s) in
  let d := dict_set timestamp content (entries s) in
  let outcome := save_entry encryption content s in
  (fst outcome = ok true \/ fst outcome = ok false) /\
  (forall e, json_dumps d = err e -> fst outcome = ok false) /\
  (forall json_data e,
      json_dumps d = ok json_data -> str_encode json_data = err e ->
      fst outcome = ok false) /\
  (forall op e,
      In op [OpenWrite ENTRIES_FILE; WriteData ENTRIES_FILE;
             Chmod ENTRIES_FILE] ->
      io_fault s op = Some e -> fst outcome = ok false) /\
  (fst outcome = ok false ->
   entries (snd outcome) = d /\
   dict_get timestamp (entries (snd outcome)) = Some content).
Proof.
  intros timestamp d outcome.
  destruct (save_entry_memory content s) as (r & s' & Hrun & He & _).
  fold timestamp in He. fold d in He.
  assert (Eo : outcome = (ok r, s')) by exact Hrun.
  split; [rewrite Eo; destruct r; auto|].
  split; [|split; [|split]].
  - intros e Hj. unfold outcome. rewrite save_entry_run. cbv zeta.
    fold timestamp. fold d. rewrite Hj. reflexivity.
  - intros json_data e Hj Hb. unfold outcome. rewrite save_entry_run.
    cbv zeta. fold timestamp. fold d. rewrite Hj. cbn. rewrite Hb.
    reflexivity.
  - intros op e Hop Hfault. unfold outcome. rewrite save_entry_run.
    cbv zeta. destruct (json_dumps _); [reflexivity|].
    destruct (str_encode _); [reflexivity|].
    unfold write_file, chmod. run.
    destruct (io_fault s (OpenWrite ENTRIES_FILE)) eqn:Ho; [reflexivity|].
    destruct (io_fault s (WriteData ENTRIES_FILE)) eqn:Hw; [reflexivity|].
    run. destruct (io_fault s (Chmod ENTRIES_FILE)) eqn:Hc; [reflexivity|].
    cbn in Hop. destruct Hop as [<- | [<- | [<- | []]]]; congruence.
  - intros _. rewrite Eo. cbn. rewrite He. split; [reflexivity|].
    apply dict_get_set_same.
Qed.

(** C10: after [save_entry], every key other than the new timestamp maps
    to what it mapped to before, and the entries under other keys are the
    same ones in the same order.  When the call succeeds, the store file
    holds, with mode 0o600, the token of the serialisation of that very
    mapping, and under a lawful Fernet the token decrypts to it. *)
Theorem save_entry_keeps_other_entries (content : str) (s : State) :
  let timestamp := clock s (ticks s) in
  let outcome := save_entry encryption content s in
  let s' := snd outcome in
  (forall k, k <> timestamp ->
             dict_get k (entries s') = dict_get k (entries s)) /\
  others timestamp (entries s') = others timestamp (entries s) /\
  (fst outcome = ok true ->
   exists json_data token,
     json_dumps (entries s') = ok json_data /\
     fs s' ENTRIES_FILE = Some (File token (octal [6; 0; 0])) /\
     (fernet_correct F -> decrypt encryption token = ok json_data)).
Proof.
  intros timestamp outcome s'.
  destruct (save_entry_memory content s) as (r & t & Hrun & He & _).
  fold timestamp in He.
  assert (Es : entries s' = dict_set timestamp content (entries s))
    by (unfold s', outcome; rewrite Hrun; exact He).
  split; [|split].
  - intros k Hk. rewrite Es. apply dict_get_set_other. exact Hk.
  - rewrite Es. apply dict_set_others.
  - rewrite Es. unfold s', outcome. clear. rewrite save_entry_run. cbv zeta.
    fold timestamp.
    destruct (json_dumps _) as [e|json_data]; [discriminate|].
    destruct (str_encode json_data) as [e|b] eqn:Hb; [discriminate|].
    unfold write_file, chmod. run.
    destruct (io_fault s (OpenWrite ENTRIES_FILE)); [discriminate|].
    destruct (io_fault s (WriteData ENTRIES_FILE)); [discriminate|].
    run. destruct (io_fault s (Chmod ENTRIES_FILE)); [discriminate|].
    intros _. exists json_data. eexists.
    split; [reflexivity|]. split; [reflexivity|].
    intros HF. unfold decrypt. cbn [f_data]. rewrite HF. cbn [rbind ok].
    unfold bytes_decode.
    unfold str_encode in Hb.
    destruct (utf8_encode json_data) as [b'|] eqn:Hu; [|discriminate].
    injection Hb as <-. rewrite (utf8_decode_encode _ Hu). reflexivity.
Qed.

End Save.

Lemma colliding_appends_keep_later_witness :
  let save := save_entry (R := Demo.runtime) Demo.manager in
  entries (snd (save (lit "second") (snd (save (lit "first") Demo.frozen))))
  = [(lit "2024-01-01T10:00:00", lit "second")].
Proof.
  intros save.
  exact (proj1 (@colliding_appends_keep_later Demo.runtime Demo.fernet
                  Demo.manager (lit "first") (lit "second") Demo.frozen
                  eq_refl)).
Defined.

Lemma save_entry_failure_keeps_entry_witness :
  let outcome :=
    save_entry (R := Demo.runtime) Demo.manager (lit "hello") Demo.read_only in
  fst outcome = ok false /\
  dict_get (lit "2024-01-01T10:00:00") (entries (snd outcome))
  = Some (lit "hello").
Proof.
  intros outcome.
  destruct (@save_entry_failure_keeps_entry Demo.runtime Demo.fernet
              Demo.manager (lit "hello") Demo.read_only)
    as (_ & _ & _ & Hfault & Hkept).
  assert (Hfalse : fst outcome = ok false).
  { apply (Hfault (OpenWrite ENTRIES_FILE)
                  (Exc OSError (lit "[Errno 13] Permission denied")));
      [left; reflexivity | reflexivity]. }
  split; [exact Hfalse|]. exact (proj2 (Hkept Hfalse)).
Defined.

Lemma save_entry_keeps_other_entries_witness :
  let outcome :=
    save_entry (R := Demo.runtime) Demo.manager (lit "fourth") Demo.diary in
  dict_get (lit "2024-01-02T09:00:00") (entries (snd outcome))
  = Some (lit "second") /\
  exists json_data token,
    json_dumps (PyRuntime := Demo.runtime) (entries (snd outcome))
    = ok json_data /\
    fs (snd outcome) ENTRIES_FILE = Some (File token (octal [6; 0; 0])) /\
    decrypt (R := Demo.runtime) Demo.manager token = ok json_data.
Proof.
  intros outcome.
  destruct (@save_entry_keeps_other_entries Demo.runtime Demo.fernet
              Demo.manager (lit "fourth") Demo.diary)
    as (Hget & _ & Hdisk).
  split.
  - change (dict_get (lit "2024-01-02T09:00:00") (entries (snd outcome))
            = dict_get (lit "2024-01-02T09:00:00") (entries Demo.diary)).
    apply Hget. intros H. vm_compute in H. discriminate.
  - destruct (Hdisk eq_refl) as (json_data & token & Hj & Hf & Hd).
    exists json_data, token. split; [exact Hj|]. split; [exact Hf|].
    apply Hd. exact demo_fernet_correct.
Defined.

(* ------------------------------------------------------------------ *)
(** ** OllamaManager.analyze_sentiment *)

Section Analysis.

Context {R : PyRuntime}.

Variable self : OllamaManager.

(** C6: for every entry text and every state of the server,
    [analyze_sentiment] returns a string and raises nothing.  When
    [ollama.list()] fails the string is the warning that asks to start
    Ollama; when the chat call fails, or its response has no text to strip,
    the string is the warning that names the failure and the configured
    model; otherwise it is the response text, stripped. *)
Theorem analyze_sentiment_returns_text (entry_text : str) (s : State) :
  exists text s',
    analyze_sentiment self entry_text s = (ok text, s') /\
    match list_reply (server s) (requests s) with
    | Some _ => text = not_running_message /\ is_available s' = false
    | None =>
        is_available s' = true /\
        match chat_reply (server s) (S (requests s)) (om_model self)
                         (sentiment_prompt entry_text) with
        | inl e =>
            text = analysis_failed_message e (om_model self) /\
            exists before between after,
              text = before ++ exn_str e ++ between ++ om_model self ++ after
        | inr None =>
            exists e, exn_cls e = AttributeError /\
                      text = analysis_failed_message e (om_model self)
        | inr (Some answer) => text = strip answer
        end
    end.
Proof.
  unfold analyze_sentiment, check_availability, ollama_list, ollama_chat,
    content_strip.
  run. destruct (list_reply (server s) (requests s)) as [e|]; run.
  - do 2 eexists. split; [reflexivity|]. split; reflexivity.
  - destruct (chat_reply (server s) (S (requests s)) (om_model self)
                         (sentiment_prompt entry_text))
      as [e|[answer|]]; run; do 2 eexists; (split; [reflexivity|]);
      (split; [reflexivity|]).
    + split; [reflexivity|]. unfold analysis_failed_message.
      exists (Colors.RED ++ WARNING_SIGN ++ lit "  Analysis failed: "),
             (NL ++ NL ++ lit "Please ensure Ollama is running and the '"),
             (lit "' model is installed." ++ Colors.END).
      rewrite <- !app_assoc. reflexivity.
    + reflexivity.
    + eexists. split; [|reflexivity]. reflexivity.
Qed.

End Analysis.

(* ------------------------------------------------------------------ *)
(** ** write_entry: the capture loop *)

Section Capture.

Context {R : PyRuntime} {F : FernetLib}.

Lemma ends_capture_strip (line : str) :
  ends_capture line = equal_up_to_case (strip line) SENTINEL.
Proof. reflexivity. Qed.

Lemma lstrip_Forall (P : char -> Prop) (text : str) :
  Forall P text -> Forall P (lstrip text).
Proof.
  induction 1 as [|c t Hc Ht IH]; cbn; [constructor|].
  destruct (is_space c); [exact IH | constructor; assumption].
Qed.

Lemma strip_Forall (P : char -> Prop) (text : str) :
  Forall P text -> Forall P (strip text).
Proof.
  intros H. unfold strip, rstrip. apply Forall_rev. apply lstrip_Forall.
  apply Forall_rev. apply lstrip_Forall. exact H.
Qed.

Lemma upper_ascii (text : str) :
  Forall (fun c => c < 128) text ->
  upper text = map (fun c => if (97 <=? c) && (c <=? 122) then c - 32 else c)
                   text.
Proof.
  unfold upper. induction 1 as [|c t Hc Ht IH]; cbn; [reflexivity|].
  unfold upper_char at 1. destruct (Z.ltb_spec c 128); [|lia].
  cbn. rewrite IH. reflexivity.
Qed.

(** On a line of ASCII the loop stops exactly when the stripped line is
    one of the eight spellings of the sentinel. *)
Lemma ends_capture_ascii (line : str) :
  Forall (fun c => c < 128) line ->
  ends_capture line = true <->
  exists e n d,
    strip line = [e; n; d] /\ (e = 69 \/ e = 101) /\ (n = 78 \/ n = 110)
    /\ (d = 68 \/ d = 100).
Proof.
  intros Hascii. unfold ends_capture.
  rewrite (upper_ascii (@strip_Forall _ _ Hascii)), str_eqb_eq.
  assert (Hup : forall c v,
             v = 69 \/ v = 78 \/ v = 68 ->
             ((if (97 <=? c) && (c <=? 122) then c - 32 else c) = v
              <-> c = v \/ c = v + 32)).
  { intros c v Hv.
    destruct (Z.leb_spec 97 c), (Z.leb_spec c 122); cbn; lia. }
  destruct (strip line) as [|e [|n [|d [|x rest]]]]; cbn;
    try (split; [discriminate | intros (? & ? & ? & ? & _); discriminate]).
  change (lit "END") with [69; 78; 68]. split.
  - intros [= He Hn Hd]. exists e, n, d.
    apply Hup in He, Hn, Hd; auto; repeat split; lia.
  - intros (e' & n' & d' & [= <- <- <-] & He & Hn & Hd).
    f_equal; [|f_equal; [|f_equal]]; apply Hup; auto; lia.
Qed.

Lemma capture_shape (inp : list str) :
  exists lines left,
    capture inp = (lines, left) /\
    Forall (fun line => equal_up_to_case (strip line) SENTINEL = false)
           lines /\
    ((exists last,
         inp = lines ++ last :: left /\
         equal_up_to_case (strip last) SENTINEL = true)
     \/ (inp = lines /\ left = [])).
Proof.
  induction inp as [|line rest IH]; cbn [capture].
  - exists [], []. split; [reflexivity|]. split; [constructor|].
    right. split; reflexivity.
  - destruct (ends_capture line) eqn:E.
    + exists [], rest. split; [reflexivity|]. split; [constructor|].
      left. exists line. split; [reflexivity|].
      rewrite <- ends_capture_strip. exact E.
    + destruct IH as (lines & left & Hc & Hall & Hshape). rewrite Hc.
      exists (line :: lines), left. split; [reflexivity|].
      split; [constructor; [rewrite <- ends_capture_strip; exact E
                           | exact Hall]|].
      destruct Hshape as [(last & -> & Hlast) | [-> ->]].
      * left. exists last. split; [reflexivity | exact Hlast].
      * right. split; reflexivity.
Qed.

(** With an entry typed, the analysis declined and the saving accepted,
    [write_entry] hands [save_entry] the kept lines joined by newlines and
    stripped. *)
Lemma write_entry_saves_joined_lines
      (encryption : EncryptionManager) (ollama_mgr : OllamaManager)
      (s : State) (lines left : list str) (decline accept : str)
      (rest : list str) :
  capture (stdin s) = (lines, left) ->
  strip (join NL lines) <> [] ->
  left = decline :: accept :: rest ->
  lower (strip decline) = lit "n" ->
  lower (strip accept) <> lit "n" ->
  exists s',
    write_entry encryption ollama_mgr s = (ok tt, s') /\
    stdin s' = rest /\
    entries s' = dict_set (clock s (ticks s)) (strip (join NL lines))
                          (entries s).
Proof.
  intros Hc Htext -> Hno Hyes.
  apply str_eqb_eq in Hno. apply str_eqb_neq in Hyes.
  unfold write_entry, read_lines. run. rewrite Hc. run.
  destruct (strip (join NL lines)) as [|c text] eqn:Et; [congruence|].
  run. rewrite Hno. run. rewrite Hyes. run.
  match goal with
  | |- context [save_entry ?e ?t ?st] =>
      destruct (save_entry_memory e t st)
        as (saved & s6 & Hrun & He & _ & _ & Hi);
        rewrite Hrun
  end.
  cbn in He, Hi.
  destruct saved; run; eexists; (split; [reflexivity|]); cbn;
    split; assumption.
Qed.

(** C7 (amended): the capture loop stops at the first line that, once
    its leading and trailing white space is stripped, equals the sentinel
    up to letter case, or when standard input is exhausted.  The lines
    read before that point are the ones kept, in order; the line that
    stops the loop is consumed and is not among them.  The entry text is
    the kept lines joined by newlines and stripped: it is what
    [save_entry] receives when the entry is saved. *)
Theorem capture_stops_at_sentinel_line (s : State) :
  exists lines left,
    read_lines s = (ok lines, set_stdin left s) /\
    Forall (fun line => equal_up_to_case (strip line) SENTINEL = false)
           lines /\
    ((exists last,
         stdin s = lines ++ last :: left /\
         equal_up_to_case (strip last) SENTINEL = true)
     \/ (stdin s = lines /\ left = [])) /\
    (forall encryption ollama_mgr decline accept rest,
        strip (join NL lines) <> [] ->
        left = decline :: accept :: rest ->
        lower (strip decline) = lit "n" ->
        lower (strip accept) <> lit "n" ->
        exists s',
          write_entry encryption ollama_mgr s = (ok tt, s') /\
          stdin s' = rest /\
          entries s' = dict_set (clock s (ticks s))
                                (strip (join NL lines)) (entries s)).
Proof.
  destruct (capture_shape (stdin s)) as (lines & left & Hc & Hall & Hshape).
  exists lines, left. unfold read_lines. rewrite Hc.
  split; [reflexivity|]. split; [exact Hall|]. split; [exact Hshape|].
  intros encryption ollama_mgr decline accept rest.
  apply write_entry_saves_joined_lines. exact Hc.
Qed.

End Capture.

Lemma capture_stops_at_sentinel_line_witness :
  let typed :=
    set_stdin [lit "Dear diary"; lit "  today was fine  "; lit " end ";
               lit "N"; []; lit "later"] Demo.fresh in
  exists s',
    write_entry (R := Demo.runtime) Demo.manager
                {| om_model := DEFAULT_MODEL |} typed = (ok tt, s') /\
    stdin s' = [lit "later"] /\
    entries s' = [(lit "2024-01-01T10:00:00",
                   lit "Dear diary" ++ NL ++ lit "  today was fine")].
Proof.
  intros typed.
  destruct (@capture_stops_at_sentinel_line Demo.runtime Demo.fernet typed)
    as (lines & left & Hread & _ & _ & Hsave).
  assert (Hlines : lines = [lit "Dear diary"; lit "  today was fine  "]).
  { pose proof (f_equal fst Hread) as H. vm_compute in H.
    injection H as <-. reflexivity. }
  assert (Hleft : left = [lit "N"; []; lit "later"]).
  { pose proof (f_equal (fun r => stdin (snd r)) Hread) as H.
    vm_compute in H. rewrite <- H. reflexivity. }
  subst lines left.
  destruct (Hsave Demo.manager {| om_model := DEFAULT_MODEL |}
                  (lit "N") [] [lit "later"])
    as (s' & Hrun & Hin & He).
  - vm_compute. discriminate.
  - reflexivity.
  - reflexivity.
  - vm_compute. discriminate.
  - exists s'. split; [exact Hrun|]. split; [exact Hin|].
    rewrite He. reflexivity.
Defined.

Lemma padded_sentinel_ends_capture :
  equal_up_to_case (R := Demo.runtime) (lit " end ") SENTINEL = false /\
  capture (R := Demo.runtime) [lit "a"; lit " end "; lit "b"]
  = ([lit "a"], [lit "b"]) /\
  capture_on_exact_sentinel (R := Demo.runtime)
                            [lit "a"; lit " end "; lit "b"]
  = ([lit "a"; lit " end "; lit "b"], []).
Proof. vm_compute. repeat split. Qed.

(* ------------------------------------------------------------------ *)
(** ** write_entry: an entry of white space *)

Section Blank.

Lemma lstrip_blank (text : str) : blank text = true -> lstrip text = [].
Proof.
  unfold blank. induction text as [|c t IH]; cbn; [reflexivity|].
  intros H. apply andb_true_iff in H as [Hc Ht]. rewrite Hc. apply IH.
  exact Ht.
Qed.

Lemma strip_blank (text : str) : blank text = true -> strip text = [].
Proof.
  intros H. unfold strip. rewrite (lstrip_blank _ H). reflexivity.
Qed.

Lemma join_blank (lines : list str) :
  Forall (fun line => blank line = true) lines ->
  blank (join NL lines) = true.
Proof.
  unfold blank. induction 1 as [|line rest Hl Hrest IH]; [reflexivity|].
  cbn [join]. destruct rest as [|next rest']; [exact Hl|].
  rewrite !forallb_app, Hl, IH. reflexivity.
Qed.

Context {R : PyRuntime} {F : FernetLib}.

(** C8: when the lines that the capture loop keeps are all white space
    (or there are none), [write_entry] prints its banner, its instructions
    and the notice that no entry was written, and returns.  The mapping in
    memory and the disk are as before; the clock was not read and no
    randomness was drawn, so [save_entry] did not run; no request went to
    the model server. *)
Theorem blank_entry_is_not_saved
        (encryption : EncryptionManager) (ollama_mgr : OllamaManager)
        (s : State) :
  Forall (fun line => blank line = true) (fst (capture (stdin s))) ->
  exists s',
    write_entry encryption ollama_mgr s = (ok tt, s') /\
    stdout s' = stdout s ++ [entry_banner; entry_instructions;
                             no_entry_notice ++ NL] /\
    stdin s' = snd (capture (stdin s)) /\
    entries s' = entries s /\ fs s' = fs s /\
    ticks s' = ticks s /\ entropy s' = entropy s /\
    requests s' = requests s.
Proof.
  intros Hblank. unfold write_entry, read_lines. run.
  destruct (capture (stdin s)) as [lines left]. cbn [fst snd] in *.
  rewrite (strip_blank _ (join_blank Hblank)). run.
  eexists. split; [reflexivity|]. cbn.
  rewrite <- !app_assoc. repeat split.
Qed.

End Blank.

Lemma blank_entry_is_not_saved_witness :
  let typed := set_stdin [lit "   "; []; [9; 32]; lit "End"; lit "y"]
                         Demo.fresh in
  exists s',
    write_entry (R := Demo.runtime) Demo.manager
                {| om_model := DEFAULT_MODEL |} typed = (ok tt, s') /\
    entries s' = [] /\ fs s' ENTRIES_FILE = None /\ stdin s' = [lit "y"].
Proof.
  intros typed.
  destruct (@blank_entry_is_not_saved Demo.runtime Demo.fernet Demo.manager
              {| om_model := DEFAULT_MODEL |} typed)
    as (s' & Hrun & _ & Hin & He & Hfs & _).
  - vm_compute. repeat constructor.
  - exists s'. split; [exact Hrun|]. rewrite He, Hfs, Hin.
    repeat split.
Defined.

(* ------------------------------------------------------------------ *)
(** ** What a run leaves alone *)

Section Frames.

Variable I : State -> State -> Prop.
Hypothesis I_refl : forall s, I s s.
Hypothesis I_trans : forall a b c, I a b -> I b c -> I a c.

Lemma keeps_ret {A} (a : A) : keeps I (ret a).
Proof. intros s. apply I_refl. Qed.

Lemma keeps_lift {A} (r : result A) : keeps I (lift r).
Proof. intros s. apply I_refl. Qed.

Lemma keeps_get : keeps I get.
Proof. intros s. apply I_refl. Qed.

Lemma keeps_bind {A B} (m : M A) (k : A -> M B) :
  keeps I m -> (forall a, keeps I (k a)) -> keeps I (bind m k).
Proof.
  intros Hm Hk s. unfold bind. specialize (Hm s).
  destruct (m s) as [[e|a] s1]; cbn [snd] in *; [exact Hm|].
  apply I_trans with s1; [exact Hm | apply Hk].
Qed.

Lemma keeps_try_except {A} (body : M A) (handler : exn -> M A) :
  keeps I body -> (forall e, keeps I (handler e)) ->
  keeps I (try_except body handler).
Proof.
  intros Hb Hh s. unfold try_except. specialize (Hb s).
  destruct (body s) as [[e|a] s1]; cbn [snd] in *; [|exact Hb].
  apply I_trans with s1; [exact Hb | apply Hh].
Qed.

Lemma keeps_modify (f : State -> State) :
  (forall s, I s (f s)) -> keeps I (modify f).
Proof. intros Hf s. apply Hf. Qed.

End Frames.

Lemma same_diary_refl (s : State) : same_diary s s.
Proof. unfold same_diary. tauto. Qed.

Lemma same_diary_trans (a b c : State) :
  same_diary a b -> same_diary b c -> same_diary a c.
Proof. unfold same_diary. intuition congruence. Qed.

Lemma same_input_refl (s : State) : same_input s s.
Proof. reflexivity. Qed.

Lemma same_input_trans (a b c : State) :
  same_input a b -> same_input b c -> same_input a c.
Proof. unfold same_input. congruence. Qed.

Lemma same_server_refl (s : State) : same_server s s.
Proof. unfold same_server. tauto. Qed.

Lemma same_server_trans (a b c : State) :
  same_server a b -> same_server b c -> same_server a c.
Proof. unfold same_server. intuition congruence. Qed.

Section Primitives.

Context {R : PyRuntime}.

Lemma print_same_diary (x : str) : keeps same_diary (print x).
Proof. intros s. unfold same_diary. cbn. tauto. Qed.

Lemma print_same_input (x : str) : keeps same_input (print x).
Proof. intros s. reflexivity. Qed.

Lemma print_same_server (x : str) : keeps same_server (print x).
Proof. intros s. unfold same_server. cbn. tauto. Qed.

Lemma input_same_diary : keeps same_diary input.
Proof.
  intros s. unfold input, same_diary. destruct (stdin s); cbn; tauto.
Qed.

Lemma input_same_server : keeps same_server input.
Proof.
  intros s. unfold input, same_server. destruct (stdin s); cbn; tauto.
Qed.

Lemma input_prompt_same_diary (x : str) : keeps same_diary (input_prompt x).
Proof.
  unfold input_prompt.
  apply keeps_bind;
    [exact same_diary_trans| |intros _; apply input_same_diary].
  apply keeps_modify. intros s. unfold same_diary. cbn. tauto.
Qed.

Lemma input_prompt_same_server (x : str) :
  keeps same_server (input_prompt x).
Proof.
  unfold input_prompt.
  apply keeps_bind;
    [exact same_server_trans| |intros _; apply input_same_server].
  apply keeps_modify. intros s. unfold same_server. cbn. tauto.
Qed.

Lemma ollama_list_same_diary : keeps same_diary ollama_list.
Proof.
  intros s. unfold ollama_list, same_diary.
  destruct (list_reply (server s) (requests s)); cbn; tauto.
Qed.

Lemma ollama_list_same_input : keeps same_input ollama_list.
Proof.
  intros s. unfold ollama_list, same_input.
  destruct (list_reply (server s) (requests s)); reflexivity.
Qed.

Lemma ollama_chat_same_diary (model prompt : str) :
  keeps same_diary (ollama_chat model prompt).
Proof. intros s. unfold same_diary. cbn. tauto. Qed.

Lemma ollama_chat_same_input (model prompt : str) :
  keeps same_input (ollama_chat model prompt).
Proof. intros s. reflexivity. Qed.

Lemma set_is_available_same_diary (b : bool) :
  keeps same_diary (modify (set_is_available b)).
Proof. intros s. unfold same_diary. cbn. tauto. Qed.

Lemma set_is_available_same_input (b : bool) :
  keeps same_input (modify (set_is_available b)).
Proof. intros s. reflexivity. Qed.

End Primitives.

Create HintDb frames.

#[export] Hint Resolve
  print_same_diary print_same_input print_same_server
  input_same_diary input_same_server
  input_prompt_same_diary input_prompt_same_server
  ollama_list_same_diary ollama_list_same_input
  ollama_chat_same_diary ollama_chat_same_input
  set_is_available_same_diary set_is_available_same_input : frames.

(** Walk down a computation built from [bind], [try_except], tests and
    the primitive steps. *)
Ltac frame_with Irefl Itrans :=
  repeat first
    [ apply keeps_bind; [exact Itrans| |intros ?]
    | apply keeps_try_except; [exact Itrans| |intros ?]
    | apply keeps_ret; exact Irefl
    | apply keeps_lift; exact Irefl
    | apply keeps_get; exact Irefl
    | solve [auto with frames]
    | match goal with
      | |- keeps _ (if ?b then _ else _) => destruct b
      | |- keeps _ (match ?x with _ => _ end) => destruct x
      end ].

Ltac frame_diary := frame_with same_diary_refl same_diary_trans.
Ltac frame_input := frame_with same_input_refl same_input_trans.
Ltac frame_server := frame_with same_server_refl same_server_trans.

(* ------------------------------------------------------------------ *)
(** ** More on get_recent_entries *)

Section RecentMore.

Lemma key_gt_irrefl (x : str * str) : ~ key_gt x x.
Proof. unfold key_gt. rewrite str_ltb_irrefl. discriminate. Qed.

Lemma key_gt_trans (x y z : str * str) :
  key_gt x y -> key_gt y z -> key_gt x z.
Proof. unfold key_gt. intros Hxy Hyz. apply (str_ltb_trans _ _ _ Hyz Hxy). Qed.

Lemma insert_desc_perm (x : str * str) (l : list (str * str)) :
  Permutation (insert_desc x l) (x :: l).
Proof.
  induction l as [|y t IH]; cbn; [reflexivity|].
  destruct (item_ltb x y); [|reflexivity].
  rewrite IH. apply perm_swap.
Qed.

Lemma sorted_reverse_perm (l : list (str * str)) :
  Permutation (sorted_reverse l) l.
Proof.
  induction l as [|x t IH]; cbn; [reflexivity|].
  rewrite insert_desc_perm. constructor. exact IH.
Qed.

Lemma dict_ok_perm (d1 d2 : dict) :
  Permutation d1 d2 -> dict_ok d1 -> dict_ok d2.
Proof.
  unfold dict_ok, keys. intros Hp. apply Permutation_NoDup.
  apply Permutation_map. exact Hp.
Qed.

(** Two lists in strictly descending order with the same elements are
    the same list. *)
Lemma descending_unique (l1 l2 : list (str * str)) :
  StronglySorted key_gt l1 -> StronglySorted key_gt l2 ->
  Permutation l1 l2 -> l1 = l2.
Proof.
  intros H1. revert l2. induction H1 as [|a t1 Ht1 IH Ha]; intros l2 H2 Hp.
  - apply Permutation_nil in Hp. congruence.
  - destruct H2 as [|b t2 Ht2 Hb].
    + apply Permutation_sym, Permutation_nil in Hp. discriminate.
    + assert (Eab : a = b).
      { assert (Hin_a : In a (b :: t2))
          by (apply (Permutation_in _ Hp); left; reflexivity).
        assert (Hin_b : In b (a :: t1))
          by (apply (Permutation_in _ (Permutation_sym Hp)); left;
              reflexivity).
        destruct Hin_a as [E | Hin_a]; [congruence|].
        destruct Hin_b as [E | Hin_b]; [congruence|].
        rewrite Forall_forall in Ha, Hb.
        exfalso. apply (@key_gt_irrefl a).
        apply key_gt_trans with b; [apply Ha | apply Hb]; assumption. }
      subst b. f_equal. apply IH; [exact Ht2|].
      apply Permutation_cons_inv with a. exact Hp.
Qed.

Lemma descending_app (l1 l2 : list (str * str)) :
  StronglySorted key_gt (l1 ++ l2) ->
  forall x y, In x l1 -> In y l2 -> key_gt x y.
Proof.
  induction l1 as [|a t IH]; cbn; intros Hs x y Hx Hy; [destruct Hx|].
  inversion Hs as [|? ? Ht Ha]; subst. destruct Hx as [<- | Hx].
  - rewrite Forall_forall in Ha. apply Ha. apply in_or_app. right. exact Hy.
  - apply IH; assumption.
Qed.

(** X1: the entries [get_recent_entries(n)] returns, for [n >= 0], are the
    latest ones: every entry of the store that it leaves out has a
    smaller timestamp than every entry it returns. *)
Theorem recent_entries_are_the_latest (s : State) (n : Z) (x y : str * str) :
  dict_ok (entries s) -> 0 <= n ->
  In x (get_recent_entries s n) ->
  In y (entries s) -> ~ In y (get_recent_entries s n) ->
  key_gt x y.
Proof.
  intros Hd Hn Hx Hy Hout. unfold get_recent_entries, slice_to in *.
  destruct (Z.leb_spec 0 n); [|lia].
  set (k := Z.to_nat n) in *. set (l := sorted_reverse (entries s)) in *.
  apply (@descending_app (firstn k l) (skipn k l)); [|exact Hx|].
  - rewrite firstn_skipn. apply sorted_reverse_sorted. exact Hd.
  - apply sorted_reverse_In in Hy. fold l in Hy.
    rewrite <- (firstn_skipn k l) in Hy. apply in_app_or in Hy.
    destruct Hy as [Hy | Hy]; [contradiction | exact Hy].
Qed.

(** X2: the result of [get_recent_entries] does not depend on the order
    in which the entries were inserted: two stores with the same entries
    give the same list. *)
Theorem recent_entries_ignore_insertion_order (s1 s2 : State) (n : Z) :
  dict_ok (entries s1) ->
  Permutation (entries s1) (entries s2) ->
  get_recent_entries s1 n = get_recent_entries s2 n.
Proof.
  intros Hd Hp. unfold get_recent_entries. f_equal.
  apply descending_unique.
  - apply sorted_reverse_sorted. exact Hd.
  - apply sorted_reverse_sorted. apply (dict_ok_perm Hp Hd).
  - rewrite !sorted_reverse_perm. exact Hp.
Qed.

(** X3: with a limit that is at least the number of entries,
    [get_recent_entries] returns every entry of the store, each once. *)
Theorem recent_entries_with_large_limit (s : State) (n : Z) :
  Z.of_nat (get_entry_count s) <= n ->
  Permutation (get_recent_entries s n) (entries s).
Proof.
  intros Hn. unfold get_recent_entries, slice_to, get_entry_count in *.
  destruct (Z.leb_spec 0 n); [|lia].
  rewrite firstn_all2; [apply sorted_reverse_perm|].
  rewrite sorted_reverse_length. lia.
Qed.

End RecentMore.

Lemma recent_entries_are_the_latest_witness :
  key_gt (lit "2024-01-03T07:30:00", lit "third")
         (lit "2024-01-01T08:00:00", lit "first").
Proof.
  apply (@recent_entries_are_the_latest Demo.diary 1).
  - distinct_keys.
  - lia.
  - left. reflexivity.
  - right. left. reflexivity.
  - vm_compute. intros [H | []]. discriminate.
Defined.

Lemma recent_entries_ignore_insertion_order_witness :
  get_recent_entries Demo.diary 2
  = get_recent_entries (set_entries (rev Demo.three_entries) Demo.fresh) 2.
Proof.
  apply (@recent_entries_ignore_insertion_order Demo.diary
           (set_entries (rev Demo.three_entries) Demo.fresh) 2).
  - distinct_keys.
  - apply Permutation_rev.
Defined.

Lemma recent_entries_with_large_limit_witness :
  Permutation (get_recent_entries Demo.diary 7) Demo.three_entries.
Proof.
  apply (@recent_entries_with_large_limit Demo.diary 7). cbn. lia.
Defined.

(* ------------------------------------------------------------------ *)
(** ** More on the store: saving, loading, and both *)

Section StoreMore.

Context {R : PyRuntime} {F : FernetLib}.

Variable encryption : EncryptionManager.

Lemma dict_set_length (k v : str) (d : dict) :
  List.length (dict_set k v d)
  = match dict_get k d with
    | Some _ => List.length d
    | None => S (List.length d)
    end.
Proof.
  induction d as [|[k' v'] t IH]; cbn; [reflexivity|].
  destruct (str_eqb k' k); cbn; [reflexivity|].
  rewrite IH. destruct (dict_get k t); reflexivity.
Qed.

Lemma dict_set_In (k v : str) (d : dict) : In (k, v) (dict_set k v d).
Proof.
  induction d as [|[k' v'] t IH]; cbn; [left; reflexivity|].
  destruct (str_eqb k' k) eqn:E; [|right; exact IH].
  apply str_eqb_eq in E. subst k'. left. reflexivity.
Qed.

(** What [_load_entries] does with a store file it can read. *)
Lemma load_entries_readable (s : State) (f : file) :
  fs s ENTRIES_FILE = Some f ->
  io_fault s (OpenRead ENTRIES_FILE) = None ->
  _load_entries encryption s =
  match f_data f with
  | [] => (ok [], s)
  | _ =>
      match decrypt encryption (f_data f) with
      | inl e => (ok [], load_report e s)
      | inr text =>
          match json_loads text with
          | inl e => (ok [], load_report e s)
          | inr d => (ok d, s)
          end
      end
  end.
Proof.
  intros Hf Hr. unfold _load_entries, load_report. run. rewrite Hf. run.
  rewrite Hf, Hr. run. destruct (f_data f) as [|b0 data]; [reflexivity|].
  run. destruct (decrypt encryption (b0 :: data)) as [e|text];
    [reflexivity|].
  run. destruct (json_loads text); reflexivity.
Qed.

Lemma load_entries_outcome (s : State) :
  exists d, (_load_entries encryption s = (ok d, s)
             \/ exists e, _load_entries encryption s
                          = (ok [], load_report e s) /\ d = []).
Proof.
  destruct (fs s ENTRIES_FILE) as [f|] eqn:Hf.
  - destruct (io_fault s (OpenRead ENTRIES_FILE)) as [e|] eqn:Hr.
    + exists []. right. exists e. split; [|reflexivity].
      unfold _load_entries, load_report. run. rewrite Hf. run.
      rewrite Hf, Hr. reflexivity.
    + rewrite (load_entries_readable _ Hf Hr).
      destruct (f_data f); [eauto|].
      destruct (decrypt encryption _) as [e|text]; [eauto 6|].
      destruct (json_loads text) as [e|d]; eauto 6.
  - exists []. left. unfold _load_entries. run. rewrite Hf. reflexivity.
Qed.

(** The mapping [_load_entries] returns depends on the store file and on
    whether it may be read, and on nothing else. *)
Lemma load_entries_same_file (s t : State) :
  fs t ENTRIES_FILE = fs s ENTRIES_FILE ->
  io_fault t (OpenRead ENTRIES_FILE) = io_fault s (OpenRead ENTRIES_FILE) ->
  fst (_load_entries encryption t) = fst (_load_entries encryption s).
Proof.
  intros Hfs Hio.
  destruct (fs s ENTRIES_FILE) as [f|] eqn:Hf.
  - destruct (io_fault s (OpenRead ENTRIES_FILE)) as [e|] eqn:Hr.
    + unfold _load_entries. run. rewrite ?Hfs, ?Hf. run.
      rewrite ?Hfs, ?Hf, ?Hio, ?Hr. reflexivity.
    + rewrite ?Hf in Hfs. rewrite ?Hr in Hio.
      rewrite (load_entries_readable _ Hfs Hio),
              (load_entries_readable _ Hf Hr).
      destruct (f_data f); [reflexivity|].
      destruct (decrypt encryption _) as [e|text]; [reflexivity|].
      destruct (json_loads text); reflexivity.
  - unfold _load_entries. run. rewrite ?Hfs, ?Hf. reflexivity.
Qed.

(** X4: [_load_entries] only reads.  Whatever it finds, it leaves the
    disk, the mapping in memory, the clock, the random source, the input
    and the server as they were; it prints nothing or one line, the
    error; and loading again gives the same result. *)
Theorem load_entries_reads_only (s : State) :
  let s' := snd (_load_entries encryption s) in
  same_diary s s' /\ same_input s s' /\ same_server s s' /\
  (stdout s' = stdout s \/ exists line, stdout s' = stdout s ++ [line]) /\
  fst (_load_entries encryption s') = fst (_load_entries encryption s).
Proof.
  intros s'. unfold s'.
  destruct (load_entries_outcome s) as (d & [Hrun | (e & Hrun & ->)]);
    rewrite Hrun; cbn [snd].
  - split; [apply same_diary_refl|]. split; [reflexivity|].
    split; [apply same_server_refl|]. split; [left; reflexivity|].
    rewrite Hrun. reflexivity.
  - split; [unfold same_diary; cbn; tauto|]. split; [reflexivity|].
    split; [unfold same_server; cbn; tauto|].
    split; [right; eexists; reflexivity|].
    rewrite (@load_entries_same_file s (load_report e s));
      [rewrite Hrun | |]; reflexivity.
Qed.

(** What a successful [save_entry] leaves on the disk. *)
Lemma save_entry_success_disk (content : str) (s : State) :
  fst (save_entry encryption content s) = ok true ->
  exists json_data b,
    json_dumps (dict_set (clock s (ticks s)) content (entries s))
    = ok json_data /\
    utf8_encode json_data = Some b /\
    fs (snd (save_entry encryption content s)) ENTRIES_FILE
    = Some (File (fernet_encrypt (em_cipher encryption) (entropy s) b)
                 (octal [6; 0; 0])).
Proof.
  rewrite save_entry_run. cbv zeta.
  destruct (json_dumps _) as [e|json_data]; [discriminate|].
  unfold str_encode.
  destruct (utf8_encode json_data) as [b|] eqn:Hb; [|discriminate].
  unfold write_file, chmod. run.
  destruct (io_fault s (OpenWrite ENTRIES_FILE)); [discriminate|].
  destruct (io_fault s (WriteData ENTRIES_FILE)); [discriminate|].
  run. destruct (io_fault s (Chmod ENTRIES_FILE)); [discriminate|].
  intros _. exists json_data, b.
  split; [reflexivity|]. split; [first [exact Hb | reflexivity]|].
  reflexivity.
Qed.

(** X5: what [save_entry] has written, [_load_entries] reads back.  After
    a call that returned [True], loading from any state whose store file
    is the one just written (a later run of the program, say) returns
    exactly the mapping that was in memory after the call: under a Fernet
    that decrypts its own tokens and never makes an empty one, and a
    [json.loads] that reads back what [json.dumps] wrote for this
    mapping. *)
Theorem saved_entries_load_back (content : str) (s later : State) :
  let d := dict_set (clock s (ticks s)) content (entries s) in
  fernet_correct F ->
  (forall c n m, fernet_encrypt c n m <> []) ->
  (forall json_data, json_dumps d = ok json_data -> json_loads json_data = ok d) ->
  fst (save_entry encryption content s) = ok true ->
  fs later ENTRIES_FILE
  = fs (snd (save_entry encryption content s)) ENTRIES_FILE ->
  io_fault later (OpenRead ENTRIES_FILE) = None ->
  entries (snd (save_entry encryption content s)) = d /\
  _load_entries encryption later = (ok d, later).
Proof.
  intros d HF Hne Hjson Hsaved Hfs Hr.
  destruct (save_entry_success_disk _ _ Hsaved) as (j & b & Hj & Hb & Hdisk).
  fold d in Hj. split.
  - destruct (save_entry_memory encryption content s)
      as (r & s' & Hrun & He & _).
    rewrite Hrun. exact He.
  - rewrite Hdisk in Hfs. rewrite (load_entries_readable _ Hfs Hr).
    cbn [f_data].
    destruct (fernet_encrypt (em_cipher encryption) (entropy s) b)
      as [|t0 token] eqn:Et; [exfalso; apply (Hne _ _ _ Et)|].
    rewrite <- Et. unfold decrypt. rewrite HF. cbn [rbind ok].
    unfold bytes_decode. rewrite (utf8_decode_encode _ Hb).
    cbv beta iota delta [ok]. rewrite (Hjson j Hj). reflexivity.
Qed.

(** X6: when the store file cannot be opened for writing, [save_entry]
    returns [False] and the disk is as it was, so the entries saved
    before load back as before; the new entry is in the mapping in
    memory only.  When the mapping could be serialised the error printed
    is the one [open] raised. *)
Theorem refused_save_keeps_store (content : str) (s : State) (e : exn) :
  io_fault s (OpenWrite ENTRIES_FILE) = Some e ->
  let outcome := save_entry encryption content s in
  let d := dict_set (clock s (ticks s)) content (entries s) in
  fst outcome = ok false /\
  fs (snd outcome) = fs s /\
  entries (snd outcome) = d /\
  (forall json_data b,
      json_dumps d = ok json_data ->
      str_encode json_data = ok b ->
      stdout (snd outcome)
      = stdout s ++ [(Colors.RED ++ lit "Error saving entry: " ++ exn_str e
                      ++ Colors.END) ++ NL]) /\
  fst (_load_entries encryption (snd outcome))
  = fst (_load_entries encryption s).
Proof.
  intros Ho outcome d.
  assert (Hrun : exists e' s1,
             outcome = (ok false, save_report e' s1) /\
             fs s1 = fs s /\ io_fault s1 = io_fault s /\ entries s1 = d /\
             stdout s1 = stdout s /\
             (forall json_data b,
                 json_dumps d = ok json_data ->
                 str_encode json_data = ok b -> e' = e)).
  { unfold outcome. rewrite save_entry_run. cbv zeta. fold d.
    destruct (json_dumps d) as [e1|json_data].
    - do 2 eexists. split; [reflexivity|]. repeat (split; [reflexivity|]).
      intros ? ? [=].
    - destruct (str_encode json_data) as [e2|b] eqn:Hb.
      + do 2 eexists. split; [reflexivity|]. repeat (split; [reflexivity|]).
        intros j b [= <-] Hb'. rewrite Hb in Hb'. discriminate.
      + unfold write_file. run. rewrite Ho.
        do 2 eexists. split; [reflexivity|]. repeat (split; [reflexivity|]).
        intros. reflexivity. }
  destruct Hrun as (e' & s1 & -> & Hfs & Hio & He & Hout & Hsame).
  cbn [fst snd]. split; [reflexivity|].
  split; [exact Hfs|]. split; [exact He|]. split.
  - intros json_data b Hj Hb. rewrite (Hsame _ _ Hj Hb).
    unfold save_report. cbn [stdout set_stdout]. rewrite Hout. reflexivity.
  - apply load_entries_same_file.
    + unfold save_report. cbn [fs set_stdout]. rewrite Hfs. reflexivity.
    + unfold save_report. cbn [io_fault set_stdout]. rewrite Hio.
      reflexivity.
Qed.

(** X7: [save_entry] adds one entry when its timestamp is new and none
    when the timestamp was already a key, whether or not the write
    succeeds, and it keeps the keys of the mapping distinct. *)
Theorem save_entry_count (content : str) (s : State) :
  let s' := snd (save_entry encryption content s) in
  get_entry_count s'
  = match dict_get (clock s (ticks s)) (entries s) with
    | Some _ => get_entry_count s
    | None => S (get_entry_count s)
    end /\
  (dict_ok (entries s) -> dict_ok (entries s')).
Proof.
  intros s'.
  destruct (save_entry_memory encryption content s)
    as (r & t & Hrun & He & _).
  unfold s', get_entry_count. rewrite Hrun. cbn [snd]. rewrite He. split.
  - apply dict_set_length.
  - apply dict_set_ok.
Qed.

(** X8: an entry saved under a timestamp later than every other key is
    the first that [get_recent_entries] returns afterwards, for every
    limit [n > 0], even when the write to disk failed. *)
Theorem saved_entry_is_most_recent (content : str) (s : State) (n : Z) :
  let timestamp := clock s (ticks s) in
  dict_ok (entries s) ->
  (forall k, In k (keys (entries s)) -> k <> timestamp ->
             str_ltb k timestamp = true) ->
  0 < n ->
  exists rest,
    get_recent_entries (snd (save_entry encryption content s)) n
    = (timestamp, content) :: rest.
Proof.
  intros timestamp Hd Hlate Hn.
  destruct (save_entry_memory encryption content s)
    as (r & t & Hrun & He & _).
  rewrite Hrun. cbn [snd]. fold timestamp in He.
  unfold get_recent_entries. rewrite He.
  set (d := dict_set timestamp content (entries s)).
  assert (Hok : dict_ok d) by (apply dict_set_ok; exact Hd).
  pose proof (sorted_reverse_sorted Hok) as Hs.
  assert (Hin : In (timestamp, content) (sorted_reverse d))
    by (apply sorted_reverse_In; apply dict_set_In).
  destruct (sorted_reverse d) as [|h tl] eqn:El; [destruct Hin|].
  assert (Hh : h = (timestamp, content)).
  { destruct Hin as [E | Hin]; [exact E|]. exfalso.
    inversion Hs as [|? ? _ Hall]; subst. rewrite Forall_forall in Hall.
    specialize (Hall _ Hin). unfold key_gt in Hall. cbn [fst] in Hall.
    assert (Hhk : In (fst h) (keys d)).
    { unfold keys. apply in_map. apply sorted_reverse_In. rewrite El.
      left. reflexivity. }
    apply dict_set_keys_In in Hhk. destruct Hhk as [E | Hhk].
    - rewrite E, str_ltb_irrefl in Hall. discriminate.
    - destruct (list_eq_dec Z.eq_dec (fst h) timestamp) as [E | Hne].
      + rewrite E, str_ltb_irrefl in Hall. discriminate.
      + pose proof (Hlate _ Hhk Hne) as Hlt.
        pose proof (str_ltb_trans _ _ _ Hall Hlt) as Habs.
        rewrite str_ltb_irrefl in Habs. discriminate. }
  subst h. unfold slice_to. destruct (Z.leb_spec 0 n); [|lia].
  destruct (Z.to_nat n) as [|k] eqn:Ek; [lia|].
  cbn [firstn]. eexists. reflexivity.
Qed.

End StoreMore.

Lemma saved_entries_load_back_witness :
  let saved := snd (save_entry (R := Demo.runtime) Demo.manager (lit "hello")
                               Demo.fresh) in
  _load_entries (R := Demo.runtime) Demo.manager saved
  = (ok [(lit "2024-01-01T10:00:00", lit "hello")], saved).
Proof.
  intros saved.
  refine (proj2 (@saved_entries_load_back Demo.runtime Demo.fernet
                   Demo.manager (lit "hello") Demo.fresh saved
                   demo_fernet_correct _ _ eq_refl eq_refl eq_refl)).
  - intros c n m. discriminate.
  - intros json_data H. injection H as <-. reflexivity.
Defined.

Lemma refused_save_keeps_store_witness :
  let outcome := save_entry (R := Demo.runtime) Demo.manager (lit "more")
                            Demo2.locked in
  fst outcome = ok false /\
  fs (snd outcome) = fs Demo2.locked /\
  entries (snd outcome) = [(lit "2024-01-01T10:00:00", lit "more")] /\
  stdout (snd outcome)
  = [(Colors.RED ++ lit "Error saving entry: "
      ++ lit "[Errno 13] Permission denied" ++ Colors.END) ++ NL] /\
  fst (_load_entries (R := Demo.runtime) Demo.manager (snd outcome))
  = ok [(lit "2024-01-01T10:00:00", lit "hello")].
Proof.
  intros outcome.
  destruct (@refused_save_keeps_store Demo.runtime Demo.fernet
              Demo.manager (lit "more") Demo2.locked
              (Exc OSError (lit "[Errno 13] Permission denied")) eq_refl)
    as (Hfalse & Hfs & He & Hout & Hload).
  split; [exact Hfalse|]. split; [exact Hfs|]. split; [exact He|].
  split; [exact (Hout _ _ eq_refl eq_refl)|].
  fold outcome in Hload. rewrite Hload. reflexivity.
Defined.

Lemma save_entry_count_witness :
  let s' := snd (save_entry (R := Demo.runtime) Demo.manager (lit "fourth")
                            Demo.diary) in
  get_entry_count s' = 4%nat /\ dict_ok (entries s').
Proof.
  intros s'.
  destruct (@save_entry_count Demo.runtime Demo.fernet Demo.manager
              (lit "fourth") Demo.diary) as (Hcount & Hok).
  split; [exact Hcount|]. apply Hok. distinct_keys.
Defined.

Lemma saved_entry_is_most_recent_witness :
  exists rest,
    get_recent_entries
      (snd (save_entry (R := Demo.runtime) Demo.manager (lit "fourth")
                       Demo2.next_year)) 2
    = (lit "2025-06-01T12:00:00", lit "fourth") :: rest.
Proof.
  apply (@saved_entry_is_most_recent Demo.runtime Demo.fernet Demo.manager
           (lit "fourth") Demo2.next_year 2).
  - distinct_keys.
  - intros k Hin _. vm_compute in Hin.
    destruct Hin as [<- | [<- | [<- | []]]]; reflexivity.
  - lia.
Defined.

(* ------------------------------------------------------------------ *)
(** ** More on EncryptionManager *)

(** Turn the boolean tests of the context into arithmetic. *)
Ltac reflect_bools :=
  repeat match goal with
         | E : (_ && _) = true |- _ => apply andb_true_iff in E; destruct E
         | E : (_ <? _) = true |- _ => apply Z.ltb_lt in E
         | E : (_ <? _) = false |- _ => apply Z.ltb_ge in E
         | E : (_ <=? _) = true |- _ => apply Z.leb_le in E
         | E : (_ <=? _) = false |- _ => apply Z.leb_gt in E
         end.

Section KeysMore.

Context {R : PyRuntime} {F : FernetLib}.

Lemma load_or_create_key_existing (s : State) (f : file) :
  fs s KEY_FILE = Some f ->
  _load_or_create_key s
  = (match io_fault s (OpenRead KEY_FILE) with
     | Some e => err e
     | None => ok (f_data f)
     end, s).
Proof.
  intros Hf. unfold _load_or_create_key. run. rewrite Hf. run.
  rewrite Hf. destruct (io_fault s (OpenRead KEY_FILE)); reflexivity.
Qed.

(** X9: when a key file is present the constructor writes nothing.  The
    state after [EncryptionManager()] is the state before it, whether the
    file could be read or not and whether Fernet took the key or not; a
    file that can be read gives the manager of exactly its bytes, or the
    error with which Fernet rejects them. *)
Theorem init_with_existing_key (s : State) (f : file) :
  fs s KEY_FILE = Some f ->
  snd (EncryptionManager_init s) = s /\
  (forall e, io_fault s (OpenRead KEY_FILE) = Some e ->
             fst (EncryptionManager_init s) = err e) /\
  (io_fault s (OpenRead KEY_FILE) = None ->
   fst (EncryptionManager_init s)
   = match Fernet (f_data f) with
     | inl e => err e
     | inr c => ok {| em_key := f_data f; em_cipher := c |}
     end).
Proof.
  intros Hf. unfold EncryptionManager_init.
  cbv beta iota zeta delta [bind lift ret ok err].
  rewrite (load_or_create_key_existing _ Hf).
  destruct (io_fault s (OpenRead KEY_FILE)) as [e0|];
    cbv beta iota delta [ok err].
  - split; [reflexivity|]. split; [|discriminate].
    intros e [= <-]. reflexivity.
  - destruct (Fernet (f_data f)); (split; [reflexivity|]);
      (split; [discriminate|]); reflexivity.
Qed.

(** X10: the manager made on a first run is the manager every later run
    makes.  On a disk with no key file, when the system performs the
    write and the chmod and Fernet takes the key it generated, the
    constructor returns a manager with that key; and on any later state
    whose key file is the one it wrote, the constructor returns the same
    manager and changes nothing. *)
Theorem manager_survives_restart (s : State) (c : cipher) :
  fs s KEY_FILE = None ->
  io_fault s (OpenWrite KEY_FILE) = None ->
  io_fault s (WriteData KEY_FILE) = None ->
  io_fault s (Chmod KEY_FILE) = None ->
  Fernet (generate_key (entropy s)) = ok c ->
  let em := {| em_key := generate_key (entropy s); em_cipher := c |} in
  exists s',
    EncryptionManager_init s = (ok em, s') /\
    forall later : State,
      fs later KEY_FILE = fs s' KEY_FILE ->
      io_fault later (OpenRead KEY_FILE) = None ->
      EncryptionManager_init later = (ok em, later).
Proof.
  intros Hf Hw Hd Hc HF em.
  unfold EncryptionManager_init at 1. unfold _load_or_create_key.
  run. rewrite Hf. run. rewrite Hf, Hw, Hd. run. rewrite Hc. run.
  rewrite HF. eexists. split; [reflexivity|].
  intros later Hk Hr. cbn in Hk.
  unfold EncryptionManager_init.
  cbv beta iota zeta delta [bind lift ret ok err].
  rewrite (load_or_create_key_existing _ Hk), Hr.
  cbv beta iota delta [ok err f_data]. rewrite HF. reflexivity.
Qed.

(** Every code point that the strict decoder gives is a scalar value. *)
Lemma utf8_decode_scalar (n : nat) :
  forall bs text,
    (List.length bs <= n)%nat ->
    utf8_decode bs = Some text -> Forall is_scalar text.
Proof.
  induction n as [|n IH]; intros bs text Hlen.
  - destruct bs; [|cbn in Hlen; lia]. cbn. intros [= <-]. constructor.
  - destruct bs as [|b0 r0]; [cbn; intros [= <-]; constructor|].
    rewrite utf8_decode_cons. cbn [List.length] in Hlen.
    unfold is_cont, is_surrogate.
    destruct ((0 <=? b0) && (b0 <? 128)) eqn:E1.
    { destruct (utf8_decode r0) as [t|] eqn:Et; [|discriminate].
      cbn. intros [= <-]. constructor; [|apply (IH r0); [lia|exact Et]].
      reflect_bools. unfold is_scalar, is_codepoint, is_surrogate.
      split; [lia|]. apply andb_false_iff. left. apply Z.leb_gt. lia. }
    destruct ((194 <=? b0) && (b0 <=? 223)) eqn:E2.
    { destruct r0 as [|b1 r1]; [discriminate|].
      destruct ((128 <=? b1) && (b1 <=? 191)) eqn:C1; [|discriminate].
      destruct (utf8_decode r1) as [t|] eqn:Et; [|discriminate].
      cbn. intros [= <-].
      constructor; [|apply (IH r1); [cbn in Hlen; lia|exact Et]].
      reflect_bools. unfold is_scalar, is_codepoint, is_surrogate.
      split; [lia|]. apply andb_false_iff. left. apply Z.leb_gt. lia. }
    destruct ((224 <=? b0) && (b0 <=? 239)) eqn:E3.
    { destruct r0 as [|b1 [|b2 r2]]; try discriminate. cbv zeta.
      match goal with
      | |- context [if ?t then _ else _] => destruct t eqn:T
      end; [|discriminate].
      destruct (utf8_decode r2) as [t|] eqn:Et; [|discriminate].
      cbn. intros [= <-].
      constructor; [|apply (IH r2); [cbn in Hlen; lia|exact Et]].
      apply andb_true_iff in T as [T Hs].
      apply negb_true_iff in Hs. reflect_bools.
      unfold is_scalar, is_codepoint. split; [lia | exact Hs]. }
    destruct ((240 <=? b0) && (b0 <=? 244)) eqn:E4; [|discriminate].
    destruct r0 as [|b1 [|b2 [|b3 r3]]]; try discriminate. cbv zeta.
    match goal with
    | |- context [if ?t then _ else _] => destruct t eqn:T
    end; [|discriminate].
    destruct (utf8_decode r3) as [t|] eqn:Et; [|discriminate].
    cbn. intros [= <-].
    constructor; [|apply (IH r3); [cbn in Hlen; lia|exact Et]].
    reflect_bools. unfold is_scalar, is_codepoint, is_surrogate.
    split; [lia|]. apply andb_false_iff. right. apply Z.leb_gt. lia.
Qed.

(** X11: what [decrypt] returns is always well-formed text, every code
    point a Unicode scalar value, and so [encrypt] never fails on it:
    text that came out of the store can always go back in. *)
Theorem decrypted_text_encrypts_again
        (self : EncryptionManager) (token : bytes) (text : str) (s : State) :
  decrypt self token = ok text ->
  Forall is_scalar text /\
  exists token' s', encrypt self text s = (ok token', s').
Proof.
  unfold decrypt. destruct (fernet_decrypt (em_cipher self) token) as [e|b];
    [discriminate|].
  cbn [rbind]. unfold bytes_decode.
  destruct (utf8_decode b) as [t|] eqn:Hd; [|discriminate].
  intros [= <-].
  assert (Hs : Forall is_scalar t)
    by (apply (@utf8_decode_scalar (List.length b) b t); [lia | exact Hd]).
  split; [exact Hs|].
  destruct (utf8_encode_total Hs) as [b' Hb'].
  unfold encrypt, str_encode. rewrite Hb'. run. do 2 eexists. reflexivity.
Qed.

(** X12: under a Fernet that decrypts its own tokens, one token stands
    for one text: if [encrypt] gave the same token for two strings, at
    whatever moments, the strings are equal. *)
Theorem equal_tokens_equal_texts
        (self : EncryptionManager) (a b : str) (token : bytes)
        (s1 s1' s2 s2' : State) :
  fernet_correct F ->
  encrypt self a s1 = (ok token, s1') ->
  encrypt self b s2 = (ok token, s2') ->
  a = b.
Proof.
  intros HF. unfold encrypt, str_encode.
  destruct (utf8_encode a) as [ba|] eqn:Ha; [|run; discriminate].
  destruct (utf8_encode b) as [bb|] eqn:Hb; [|run; discriminate].
  run. intros [= Ea _] [= Eb _].
  assert (E : ok ba = ok bb).
  { rewrite <- (HF (em_cipher self) (entropy s1) ba),
            <- (HF (em_cipher self) (entropy s2) bb).
    rewrite Ea, Eb. reflexivity. }
  injection E as ->.
  apply utf8_decode_encode in Ha, Hb. congruence.
Qed.

End KeysMore.

Lemma init_with_existing_key_witness :
  EncryptionManager_init (R := Demo.runtime) (F := Demo.fernet) Demo2.bad_key
  = (err (Exc ValueError
              (lit "Fernet key must be 32 url-safe base64-encoded bytes.")),
     Demo2.bad_key).
Proof.
  destruct (@init_with_existing_key Demo.runtime Demo.fernet Demo2.bad_key
              (File (lit "not a key") (octal [6; 4; 4])) eq_refl)
    as (Hstate & _ & Hvalue).
  rewrite (surjective_pairing (EncryptionManager_init Demo2.bad_key)).
  rewrite Hstate, (Hvalue eq_refl). reflexivity.
Defined.

Lemma manager_survives_restart_witness :
  exists s',
    EncryptionManager_init (R := Demo.runtime) Demo.fresh
    = (ok Demo.manager, s') /\
    EncryptionManager_init (R := Demo.runtime) s' = (ok Demo.manager, s').
Proof.
  destruct (@manager_survives_restart Demo.runtime Demo.fernet Demo.fresh
              (Demo.key0 : @cipher Demo.fernet)
              eq_refl eq_refl eq_refl eq_refl eq_refl)
    as (s' & Hfirst & Hlater).
  exists s'. split; [exact Hfirst|].
  apply Hlater; [reflexivity|].
  pose proof (f_equal (fun r => io_fault (snd r) (OpenRead KEY_FILE)) Hfirst)
    as H.
  cbn [snd] in H. rewrite <- H. reflexivity.
Defined.

Lemma decrypted_text_encrypts_again_witness :
  exists token' s',
    encrypt (R := Demo.runtime) Demo.manager (lit "hi") Demo.fresh
    = (ok token', s').
Proof.
  apply (@decrypted_text_encrypts_again Demo.runtime Demo.fernet
           Demo.manager (Demo.token_of (lit "hi")) (lit "hi") Demo.fresh).
  reflexivity.
Defined.

Lemma equal_tokens_equal_texts_witness : lit "same" = lit "same".
Proof.
  apply (@equal_tokens_equal_texts Demo.runtime Demo.fernet Demo.manager
           (lit "same") (lit "same") (Demo.token_of (lit "same"))
           Demo.fresh (set_entropy 1 Demo.fresh)
           Demo.diary (set_entropy 1 Demo.diary)
           demo_fernet_correct);
    reflexivity.
Defined.

(* ------------------------------------------------------------------ *)
(** ** The model server *)

Section ServerMore.

Context {R : PyRuntime}.

Lemma check_availability_same_diary : keeps same_diary check_availability.
Proof. unfold check_availability. frame_diary. Qed.

Lemma check_availability_same_input : keeps same_input check_availability.
Proof. unfold check_availability. frame_input. Qed.

Lemma analyze_sentiment_same_diary (self : OllamaManager) (text : str) :
  keeps same_diary (analyze_sentiment self text).
Proof.
  unfold analyze_sentiment. cbv zeta.
  pose proof check_availability_same_diary. frame_diary.
Qed.

Lemma analyze_sentiment_same_input (self : OllamaManager) (text : str) :
  keeps same_input (analyze_sentiment self text).
Proof.
  unfold analyze_sentiment. cbv zeta.
  pose proof check_availability_same_input. frame_input.
Qed.

(** X13: [check_availability] never raises.  It returns [True] exactly
    when [ollama.list()] succeeded, stores what it returns in
    [is_available], makes one request, prints nothing and leaves the
    diary and the input alone. *)
Theorem check_availability_reports_server (s : State) :
  exists available s',
    check_availability s = (ok available, s') /\
    is_available s' = available /\
    (available = true <-> list_reply (server s) (requests s) = None) /\
    requests s' = S (requests s) /\ stdout s' = stdout s /\
    same_diary s s' /\ same_input s s'.
Proof.
  pose proof (check_availability_same_diary s) as Hd.
  pose proof (check_availability_same_input s) as Hi.
  revert Hd Hi. unfold check_availability, ollama_list. run.
  destruct (list_reply (server s) (requests s)) as [e|]; run; intros Hd Hi;
    do 2 eexists; (split; [reflexivity|]); cbn;
    repeat split; auto; discriminate.
Qed.

(** X14: [analyze_sentiment] touches neither the diary (memory, disk,
    clock, random source) nor the input.  With the server down it makes
    one request and prints nothing; with the server up it prints that it
    is analysing and makes two requests, whatever the chat call does. *)
Theorem analysis_leaves_diary_alone
        (self : OllamaManager) (text : str) (s : State) :
  let s' := snd (analyze_sentiment self text s) in
  same_diary s s' /\ same_input s s' /\
  match list_reply (server s) (requests s) with
  | Some _ => requests s' = S (requests s) /\ stdout s' = stdout s
  | None =>
      requests s' = S (S (requests s)) /\
      stdout s' = stdout s ++ [(Colors.CYAN ++ [0x1F914]
                                ++ lit " Analyzing your entry locally..."
                                ++ Colors.END) ++ NL]
  end.
Proof.
  intros s'. split; [apply analyze_sentiment_same_diary|].
  split; [apply analyze_sentiment_same_input|].
  unfold s', analyze_sentiment, check_availability, ollama_list,
    ollama_chat, content_strip.
  run. destruct (list_reply (server s) (requests s)) as [e|]; run.
  - split; reflexivity.
  - destruct (chat_reply (server s) (S (requests s)) (om_model self)
                         (sentiment_prompt text)) as [e|[answer|]];
      run; split; reflexivity.
Qed.

End ServerMore.

#[export] Hint Resolve
  check_availability_same_diary check_availability_same_input
  analyze_sentiment_same_diary analyze_sentiment_same_input : frames.

(* ------------------------------------------------------------------ *)
(** ** view_recent_entries and check_status *)

Section Viewing.

Context {P : Platform}.

Lemma show_entries_same_diary (l : list (str * str)) :
  forall i, keeps same_diary (show_entries i l).
Proof.
  induction l as [|[t c] rest IH]; intros i; cbn [show_entries];
    [apply keeps_ret; exact same_diary_refl|].
  pose proof (IH (S i)). frame_diary.
Qed.

Lemma show_entries_same_input (l : list (str * str)) :
  forall i, keeps same_input (show_entries i l).
Proof.
  induction l as [|[t c] rest IH]; intros i; cbn [show_entries];
    [apply keeps_ret; exact same_input_refl|].
  pose proof (IH (S i)). frame_input.
Qed.

Lemma show_entries_same_server (l : list (str * str)) :
  forall i, keeps same_server (show_entries i l).
Proof.
  induction l as [|[t c] rest IH]; intros i; cbn [show_entries];
    [apply keeps_ret; exact same_server_refl|].
  pose proof (IH (S i)). frame_server.
Qed.

Lemma view_same_diary : keeps same_diary view_recent_entries.
Proof.
  unfold view_recent_entries. cbv zeta.
  pose proof show_entries_same_diary. frame_diary.
Qed.

Lemma view_same_input : keeps same_input view_recent_entries.
Proof.
  unfold view_recent_entries. cbv zeta.
  pose proof show_entries_same_input. frame_input.
Qed.

Lemma view_same_server : keeps same_server view_recent_entries.
Proof.
  unfold view_recent_entries. cbv zeta.
  pose proof show_entries_same_server. frame_server.
Qed.

(** What the loop of [view_recent_entries] prints for entries whose
    timestamps are all accepted. *)
Lemma show_entries_well_dated (l : list (str * str)) :
  Forall well_dated l ->
  forall i s,
    exists s',
      show_entries i l s = (ok tt, s') /\
      stdout s' = stdout s ++ listing i l.
Proof.
  induction 1 as [|[t c] rest [date Hdate] _ IH]; intros i s.
  - exists s. cbn. rewrite app_nil_r. split; reflexivity.
  - cbn [show_entries listing fst] in *. unfold entry_lines.
    cbn [fst snd]. run. rewrite Hdate. run.
    match goal with
    | |- context [show_entries (S i) rest ?s1] =>
        destruct (IH (S i) s1) as (s' & Hrun & Hout)
    end.
    rewrite Hrun. cbn [stdout set_stdout] in Hout.
    exists s'. split; [reflexivity|].
    rewrite Hout, <- !app_assoc. reflexivity.
Qed.

(** And when one timestamp is rejected: the entries before it. *)
Lemma show_entries_ill_dated
      (good : list (str * str)) (t c : str) (rest : list (str * str))
      (e : exn) :
  Forall well_dated good ->
  format_timestamp t = err e ->
  forall i s,
    exists s',
      show_entries i (good ++ (t, c) :: rest) s = (err e, s') /\
      stdout s' = stdout s ++ listing i good.
Proof.
  intros Hgood Hbad.
  induction Hgood as [|[t0 c0] more [date Hdate] _ IH]; intros i s.
  - exists s. cbn [app show_entries listing]. run. rewrite Hbad.
    rewrite app_nil_r. split; reflexivity.
  - cbn [app show_entries listing fst] in *. unfold entry_lines.
    cbn [fst snd]. run. rewrite Hdate. run.
    match goal with
    | |- context [show_entries (S i) _ ?s1] =>
        destruct (IH (S i) s1) as (s' & Hrun & Hout)
    end.
    rewrite Hrun. cbn [stdout set_stdout] in Hout.
    exists s'. split; [reflexivity|].
    rewrite Hout, <- !app_assoc. reflexivity.
Qed.

Lemma count_after_print (l : list str) (s : State) :
  get_entry_count (set_stdout l s) = get_entry_count s.
Proof. reflexivity. Qed.

Lemma recent_after_print (l : list str) (s : State) (n : Z) :
  get_recent_entries (set_stdout l s) n = get_recent_entries s n.
Proof. reflexivity. Qed.

Lemma recent_five_length (s : State) :
  List.length (get_recent_entries s 5) = Nat.min 5 (get_entry_count s).
Proof.
  unfold get_recent_entries, slice_to, get_entry_count.
  change (0 <=? 5) with true. cbv iota.
  rewrite length_firstn, sorted_reverse_length. reflexivity.
Qed.

(** X15: viewing changes nothing but the screen: [view_recent_entries]
    leaves the diary (memory, disk, clock, random source), the input and
    the model server as they were, whether it returns or raises. *)
Theorem viewing_changes_nothing (s : State) :
  let s' := snd (view_recent_entries s) in
  same_diary s s' /\ same_input s s' /\ same_server s s'.
Proof.
  intros s'. split; [apply view_same_diary|].
  split; [apply view_same_input | apply view_same_server].
Qed.

(** X16: on an empty store [view_recent_entries] prints its header and
    the notice that there are no entries.  On a store whose five latest
    timestamps [datetime.fromisoformat] accepts, it prints the header,
    then for each of the [min(5, count)] latest entries, latest first and
    numbered from 1, its number with its date, the preview of its text
    and an empty line, and last the line that says how many of how many
    are shown. *)
Theorem view_shows_the_latest_five (s : State) :
  (get_entry_count s = 0%nat ->
   exists s',
     view_recent_entries s = (ok tt, s') /\
     stdout s' = stdout s ++ [view_header; no_entries_yet ++ NL]) /\
  (get_entry_count s <> 0%nat ->
   Forall well_dated (get_recent_entries s 5) ->
   exists s',
     view_recent_entries s = (ok tt, s') /\
     stdout s'
     = stdout s ++ [view_header] ++ listing 1 (get_recent_entries s 5)
       ++ [showing_line (Nat.min 5 (get_entry_count s)) (get_entry_count s)
           ++ NL]).
Proof.
  unfold view_recent_entries, view_header. split.
  - intros Hempty. run. rewrite count_after_print, Hempty. cbn [Nat.eqb].
    run.
    eexists. split; [reflexivity|]. cbn. rewrite <- app_assoc. reflexivity.
  - intros Hsome Hdated. run.
    rewrite !count_after_print, ?recent_after_print.
    apply Nat.eqb_neq in Hsome. rewrite Hsome. run.
    match goal with
    | |- context [show_entries 1 _ ?s1] =>
          pose proof (show_entries_same_diary (get_recent_entries s 5) 1 s1)
          as Hkept;
          destruct (show_entries_well_dated Hdated 1 s1)
          as (s2 & Hrun & Hout)
    end.
    rewrite Hrun in *. cbn [snd] in Hkept. run.
    destruct Hkept as (He & _).
    cbn [stdout set_stdout entries] in He, Hout.
    assert (Hc : get_entry_count s2 = get_entry_count s)
      by (unfold get_entry_count; rewrite He; reflexivity).
    exists (set_stdout
              (stdout s2 ++
               [showing_line (List.length (get_recent_entries s 5))
                             (get_entry_count s2) ++ NL]) s2).
    split; [reflexivity|]. cbn [stdout set_stdout].
    rewrite Hc, recent_five_length.
    rewrite Hout, <- !app_assoc. reflexivity.
Qed.

(** X17: one timestamp that [datetime.fromisoformat] rejects among the
    five latest stops the listing: [view_recent_entries] prints the
    header and the lines of the entries before it, and raises the error;
    nothing more is printed, so no summary line; the diary itself is
    untouched. *)
Theorem view_stops_at_bad_timestamp
        (s : State) (good : list (str * str)) (t c : str)
        (rest : list (str * str)) (e : exn) :
  get_recent_entries s 5 = good ++ (t, c) :: rest ->
  Forall well_dated good ->
  format_timestamp t = err e ->
  exists s',
    view_recent_entries s = (err e, s') /\
    stdout s' = stdout s ++ [view_header] ++ listing 1 good /\
    same_diary s s'.
Proof.
  intros Hrecent Hgood Hbad.
  pose proof (view_same_diary s) as Hkept. revert Hkept.
  assert (Hsome : get_entry_count s <> 0%nat).
  { intros H0. pose proof (recent_five_length s) as Hl.
    rewrite Hrecent, H0, length_app in Hl. cbn in Hl. lia. }
  unfold view_recent_entries, view_header. run.
  rewrite !count_after_print, ?recent_after_print.
  apply Nat.eqb_neq in Hsome. rewrite Hsome. run.
  rewrite Hrecent.
  match goal with
  | |- context [show_entries 1 _ ?s1] =>
        destruct (@show_entries_ill_dated good t c rest e Hgood Hbad 1 s1)
        as (s2 & Hrun & Hout)
  end.
  rewrite Hrun. intros Hkept. cbn [snd] in Hkept.
  cbn [stdout set_stdout] in Hout.
  exists s2. split; [reflexivity|]. split; [|assumption].
  rewrite Hout, <- !app_assoc. reflexivity.
Qed.

(** X18: a preview never has more than 103 characters, begins with the
    first 100 characters of the content, and is the content itself when
    the content has at most 100. *)
Theorem preview_is_short (content : str) :
  (List.length (preview content) <= 103)%nat /\
  firstn 100 (preview content) = firstn 100 content /\
  ((List.length content <= 100)%nat -> preview content = content).
Proof.
  unfold preview. destruct (Nat.ltb_spec 100 (List.length content)).
  - split; [|split].
    + rewrite length_app, length_firstn.
      replace (List.length (lit "...")) with 3%nat by reflexivity. lia.
    + rewrite firstn_app, length_firstn.
      replace (100 - Nat.min 100 (List.length content))%nat with 0%nat
        by lia.
      rewrite firstn_0, app_nil_r, firstn_firstn. reflexivity.
    + lia.
  - split; [lia|]. split; reflexivity.
Qed.

End Viewing.

(* ------------------------------------------------------------------ *)
(** ** More on write_entry *)

Section WritingMore.

Context {R : PyRuntime} {F : FernetLib}.

Lemma analyze_sentiment_returns
      (self : OllamaManager) (text : str) (s : State) :
  exists answer s', analyze_sentiment self text s = (ok answer, s').
Proof.
  unfold analyze_sentiment, check_availability, ollama_list, ollama_chat,
    content_strip.
  run. destruct (list_reply (server s) (requests s)); run;
    [do 2 eexists; reflexivity|].
  destruct (chat_reply _ _ _ _) as [e|[answer|]]; run;
    do 2 eexists; reflexivity.
Qed.

Lemma save_entry_same_server (encryption : EncryptionManager) (content : str) :
  keeps same_server (save_entry encryption content).
Proof.
  intros s. rewrite save_entry_run. cbv zeta. unfold same_server.
  destruct (json_dumps _); [cbn; tauto|].
  destruct (str_encode _); [cbn; tauto|].
  unfold write_file, chmod. run.
  destruct (io_fault s (OpenWrite ENTRIES_FILE)); [cbn; tauto|].
  destruct (io_fault s (WriteData ENTRIES_FILE)); [cbn; tauto|].
  run. destruct (io_fault s (Chmod ENTRIES_FILE)); cbn; tauto.
Qed.

Variable encryption : EncryptionManager.
Variable ollama_mgr : OllamaManager.

(** Run [write_entry] up to its first question. *)
Ltac to_first_question Hc :=
  unfold write_entry, read_lines; run; rewrite Hc; run;
  match goal with
  | |- context [match strip (join NL ?lines) with _ => _ end] =>
      let Et := fresh "Et" in
      destruct (strip (join NL lines)) as [|? ?] eqn:Et; [congruence|]
  end; run.

(** Run the analysis, keeping what it leaves alone. *)
Ltac through_analysis :=
  match goal with
  | |- context [analyze_sentiment ?o ?t ?st] =>
      let Hrun := fresh "Hrun" in
      let Hd := fresh "Hd" in
      let Hi := fresh "Hi" in
      destruct (analyze_sentiment_returns o t st) as (answer & s3 & Hrun);
        pose proof (analyze_sentiment_same_diary o t st) as Hd;
        pose proof (analyze_sentiment_same_input o t st) as Hi;
        rewrite Hrun in *; cbn [snd] in Hd, Hi;
        unfold same_input in Hi;
        unfold same_diary in Hd;
        cbn [stdin stdout entries fs io_fault umask clock ticks entropy
             set_stdin set_stdout] in Hd, Hi;
        destruct Hd as (Hd1 & Hd2 & Hd3 & Hd4 & Hd5 & Hd6 & Hd7)
  end; run.

(** X19: an entry whose saving is declined is discarded.  Whatever was
    answered to the offer of analysis, when the answer to "Save this
    entry?" is [n] (in any case, with any white space around it),
    [write_entry] returns with the diary as it was: nothing in memory,
    nothing on the disk, the clock not read. *)
Theorem declined_entry_is_discarded
        (s : State) (lines : list str) (first second : str)
        (rest : list str) :
  capture (stdin s) = (lines, first :: second :: rest) ->
  strip (join NL lines) <> [] ->
  lower (strip second) = lit "n" ->
  exists s',
    write_entry encryption ollama_mgr s = (ok tt, s') /\
    same_diary s s' /\ stdin s' = rest.
Proof.
  intros Hc Htext Hno. apply str_eqb_eq in Hno.
  to_first_question Hc.
  destruct (str_eqb (lower (strip first)) (lit "n")); run.
  - rewrite Hno. run. eexists. split; [reflexivity|].
    split; [unfold same_diary; cbn; tauto | reflexivity].
  - through_analysis. rewrite Hi. run. rewrite Hno. run.
    eexists. split; [reflexivity|].
    split; [unfold same_diary; cbn; tauto | reflexivity].
Qed.

(** X20: on a standard input that ends for good, a pipe or a file, an
    entry that nothing follows is lost.  When such an input ends with the
    entry (with or without the sentinel line), the first question finds
    no answer: [write_entry] raises [EOFError] and the diary is as it
    was.  (A terminal, where the end-of-file key ends the entry and the
    answers can still be typed, is not what [stdin] stands for here.) *)
Theorem entry_at_end_of_input_is_lost (s : State) (lines : list str) :
  capture (stdin s) = (lines, []) ->
  strip (join NL lines) <> [] ->
  exists s',
    write_entry encryption ollama_mgr s
    = (err (Exc EOFError (lit "EOF when reading a line")), s') /\
    same_diary s s' /\ stdin s' = [].
Proof.
  intros Hc Htext. to_first_question Hc.
  eexists. split; [reflexivity|].
  split; [unfold same_diary; cbn; tauto | reflexivity].
Qed.

(** X21: saving is the default.  Whatever was answered to the offer of
    analysis, when the answer to "Save this entry?" is anything but [n],
    the empty line included, [write_entry] returns and the mapping in
    memory holds the entry text, the kept lines joined by newlines and
    stripped, under the timestamp read from the clock. *)
Theorem accepted_entry_is_saved
        (s : State) (lines : list str) (first second : str)
        (rest : list str) :
  capture (stdin s) = (lines, first :: second :: rest) ->
  strip (join NL lines) <> [] ->
  lower (strip second) <> lit "n" ->
  exists s',
    write_entry encryption ollama_mgr s = (ok tt, s') /\
    stdin s' = rest /\
    entries s' = dict_set (clock s (ticks s)) (strip (join NL lines))
                          (entries s).
Proof.
  intros Hc Htext Hyes. apply str_eqb_neq in Hyes.
  to_first_question Hc.
  destruct (str_eqb (lower (strip first)) (lit "n")); run.
  - rewrite Hyes. run.
    match goal with
    | |- context [save_entry ?e ?t ?st] =>
        destruct (save_entry_memory e t st)
          as (saved & s6 & Hrun & He & _ & _ & Hin);
          rewrite Hrun
    end.
    cbn [stdin stdout entries clock ticks set_stdin set_stdout] in He, Hin.
    destruct saved; run; eexists; (split; [reflexivity|]); cbn;
      split; assumption.
  - through_analysis. rewrite Hi. run. rewrite Hyes. run.
    match goal with
    | |- context [save_entry ?e ?t ?st] =>
        destruct (save_entry_memory e t st)
          as (saved & s6 & Hrun' & He & _ & _ & Hin);
          rewrite Hrun'
    end.
    cbn [stdin stdout entries clock ticks set_stdin set_stdout] in He, Hin.
    rewrite Hd1, Hd5, Hd6 in He.
    destruct saved; run; eexists; (split; [reflexivity|]); cbn;
      split; assumption.
Qed.

(** X22: declining the analysis keeps the entry on the machine.  When
    the answer to "Would you like AI analysis" is [n], [write_entry]
    makes no request to the model server, whether the entry is then saved
    or not. *)
Theorem declined_analysis_sends_nothing
        (s : State) (lines : list str) (first second : str)
        (rest : list str) :
  capture (stdin s) = (lines, first :: second :: rest) ->
  strip (join NL lines) <> [] ->
  lower (strip first) = lit "n" ->
  same_server s (snd (write_entry encryption ollama_mgr s)).
Proof.
  intros Hc Htext Hno. apply str_eqb_eq in Hno.
  to_first_question Hc. rewrite Hno. run.
  destruct (str_eqb (lower (strip second)) (lit "n")); run;
    [unfold same_server; cbn; tauto|].
  match goal with
  | |- context [save_entry ?e ?t ?st] =>
      pose proof (save_entry_same_server e t st) as Hs;
        destruct (save_entry e t st) as [[e0|[|]] s6]
  end; cbn [snd] in Hs; unfold same_server in *;
    cbn [requests is_available server set_stdin set_stdout] in Hs;
    run; cbn; exact Hs.
Qed.

End WritingMore.

(* ------------------------------------------------------------------ *)
(** ** check_status and the menu loop *)

Section Menu.

Context {R : PyRuntime} {F : FernetLib} {P : Platform}.

Variable encryption : EncryptionManager.
Variable ollama : OllamaManager.

Lemma check_status_same_diary : keeps same_diary (check_status ollama).
Proof. unfold check_status. frame_diary. Qed.

Lemma check_status_same_input : keeps same_input (check_status ollama).
Proof. unfold check_status. frame_input. Qed.

(** X23: [check_status] never raises, whatever the server does.  It makes
    one request, leaves [is_available] telling whether [ollama.list()]
    succeeded, and touches neither the diary nor the input. *)
Theorem check_status_only_reports (s : State) :
  exists s',
    check_status ollama s = (ok tt, s') /\
    (is_available s' = true <-> list_reply (server s) (requests s) = None) /\
    requests s' = S (requests s) /\
    same_diary s s' /\ same_input s s'.
Proof.
  pose proof (check_status_same_diary s) as Hd.
  pose proof (check_status_same_input s) as Hi.
  revert Hd Hi. unfold check_status, check_availability, ollama_list. run.
  destruct (list_reply (server s) (requests s)) as [e|]; run;
    intros Hd Hi; eexists; (split; [reflexivity|]);
    (split; [cbn; split; intros; congruence|]);
    (split; [reflexivity|]); split; assumption.
Qed.


Lemma clear_screen_same_diary : keeps same_diary clear_screen.
Proof. intros s. unfold same_diary. cbn. tauto. Qed.

Lemma clear_screen_same_server : keeps same_server clear_screen.
Proof. intros s. unfold same_server. cbn. tauto. Qed.

Lemma resume_same_diary : keeps same_diary resume.
Proof.
  unfold resume, print_banner. pose proof clear_screen_same_diary.
  frame_diary.
Qed.

Lemma resume_same_server : keeps same_server resume.
Proof.
  unfold resume, print_banner. pose proof clear_screen_same_server.
  frame_server.
Qed.





Lemma main_turn_run (s : State) :
  main_turn encryption ollama false s =
  try_except
    (line <- input_prompt select_prompt ;;
     let choice := strip line in
     if str_eqb choice (lit "1") then
       write_entry encryption ollama ;; resume
     else if str_eqb choice (lit "2") then
       view_recent_entries ;; resume
     else if str_eqb choice (lit "3") then
       check_status ollama ;; resume
     else if str_eqb choice (lit "4") then
       print farewell_line ;;
       print safe_line ;;
       ret (Exit 0)
     else
       print invalid_option_line ;; resume)
    (fun e => print (error_line e) ;; ret Continue)
    (set_stdout (stdout s ++ [menu_text]) s).
Proof. reflexivity. Qed.

(** The turn in which the interrupt key is hit at the menu prompt. *)
Lemma main_turn_interrupted (s : State) :
  main_turn encryption ollama true s =
  (ok (Exit 0),
   set_stdout (stdout s ++ [menu_text; select_prompt;
                            (NL ++ NL ++ Colors.CYAN ++ [0x1F44B]
                             ++ lit " Goodbye!" ++ Colors.END ++ NL) ++ NL])
              s).
Proof.
  unfold main_turn, print_menu. run. cbn [set_stdout].
  rewrite <- !app_assoc. reflexivity.
Qed.

(** The body of a turn, once the choice has been read. *)
Lemma turn_body_run (k : str -> M turn) (h : exn -> M turn) (s : State) :
  try_except (line <- input_prompt select_prompt ;; k line) h s =
  match stdin s with
  | [] => h end_of_input (set_stdout (stdout s ++ [select_prompt]) s)
  | line :: rest =>
      try_except (k line) h
                 (set_stdin rest (set_stdout (stdout s ++ [select_prompt]) s))
  end.
Proof.
  run. destruct (stdin s); reflexivity.
Qed.


(** X25: choosing [4] ends the program with exit code 0: after the menu
    and the prompt the turn prints the two lines of farewell and exits,
    reading nothing more and leaving the diary and the server as they
    were; the loop, given at least one turn, stops there with that
    code. *)
Theorem choice_four_exits (s : State) (line : str) (rest : list str)
        (signal : nat -> bool) (turns : nat) :
  stdin s = line :: rest ->
  strip line = lit "4" ->
  signal O = false ->
  exists s',
    main_turn encryption ollama false s = (ok (Exit 0), s') /\
    main_loop encryption ollama signal (S turns) s = (ok (Some 0), s') /\
    stdout s'
    = stdout s
      ++ [menu_text; select_prompt;
          (NL ++ Colors.CYAN ++ [0x1F44B]
           ++ lit " Thank you for using Privacy Diary!" ++ Colors.END) ++ NL;
          (Colors.CYAN ++ lit "Your entries are safe and encrypted."
           ++ Colors.END ++ NL) ++ NL] /\
    same_diary s s' /\ same_server s s' /\ stdin s' = rest.
Proof.
  intros Hin Hline Hsig.
  assert (Hturn : exists s',
             main_turn encryption ollama false s = (ok (Exit 0), s') /\
             stdout s'
             = stdout s
               ++ [menu_text; select_prompt;
                   (NL ++ Colors.CYAN ++ [0x1F44B]
                    ++ lit " Thank you for using Privacy Diary!"
                    ++ Colors.END) ++ NL;
                   (Colors.CYAN ++ lit "Your entries are safe and encrypted."
                    ++ Colors.END ++ NL) ++ NL] /\
             same_diary s s' /\ same_server s s' /\ stdin s' = rest).
  { rewrite main_turn_run, turn_body_run. cbn [stdin set_stdout].
    rewrite Hin. cbv zeta. rewrite Hline.
    change (str_eqb (lit "4") (lit "1")) with false.
    change (str_eqb (lit "4") (lit "2")) with false.
    change (str_eqb (lit "4") (lit "3")) with false.
    change (str_eqb (lit "4") (lit "4")) with true.
    run. eexists. split; [reflexivity|].
    split; [cbn [stdout set_stdout set_stdin];
            rewrite <- !app_assoc; reflexivity|].
    split; [unfold same_diary; cbn; tauto|].
    split; [unfold same_server; cbn; tauto | reflexivity]. }
  destruct Hturn as (s' & Hrun & Hout & Hd & Hs & Hi). exists s'.
  split; [exact Hrun|]. split; [|repeat (split; [assumption|]); assumption].
  cbn [main_loop]. unfold bind. rewrite Hsig, Hrun. reflexivity.
Qed.

Lemma main_turn_at_end_of_input (s : State) :
  stdin s = [] ->
  exists s',
    main_turn encryption ollama false s = (ok Continue, s') /\
    stdin s' = [] /\ same_diary s s' /\ same_server s s' /\
    stdout s' = stdout s ++ turn_at_end_of_input.
Proof.
  intros Hin. rewrite main_turn_run, turn_body_run. cbn [stdin set_stdout].
  rewrite Hin. run. eexists. split; [reflexivity|].
  split; [exact Hin|]. split; [unfold same_diary; cbn; tauto|].
  split; [unfold same_server; cbn; tauto|].
  cbn [stdout set_stdout]. unfold turn_at_end_of_input.
  rewrite <- !app_assoc. reflexivity.
Qed.

(** X26: on a standard input that has ended for good (a pipe or a file
    read to its end) the program does not stop by itself.  Every turn
    prints the menu, the prompt and the error of the failed read, and
    goes on: as long as the interrupt key is not hit the loop has not
    exited, the diary and the server are untouched, and the output is
    those three pieces once per turn.  The interrupt key ends it, with
    the goodbye line and exit code 0. *)
Theorem loop_spins_at_end_of_input (turns : nat) :
  forall (signal : nat -> bool) (s : State),
    stdin s = [] ->
    (forall n, (n < turns)%nat -> signal n = false) ->
    (exists s',
        main_loop encryption ollama signal turns s = (ok None, s') /\
        stdin s' = [] /\ same_diary s s' /\ same_server s s' /\
        stdout s' = stdout s ++ turns_at_end_of_input turns) /\
    (signal turns = true ->
     exists s',
       main_loop encryption ollama signal (S turns) s = (ok (Some 0), s') /\
       stdin s' = [] /\ same_diary s s' /\ same_server s s' /\
       stdout s'
       = stdout s ++ turns_at_end_of_input turns
         ++ [menu_text; select_prompt;
             (NL ++ NL ++ Colors.CYAN ++ [0x1F44B] ++ lit " Goodbye!"
              ++ Colors.END ++ NL) ++ NL]).
Proof.
  induction turns as [|turns IH]; intros signal s Hin Hquiet.
  - split.
    + exists s. split; [reflexivity|]. split; [exact Hin|].
      split; [apply same_diary_refl|]. split; [apply same_server_refl|].
      cbn [turns_at_end_of_input]. rewrite app_nil_r. reflexivity.
    + intros Hsig. cbn [main_loop]. unfold bind.
      rewrite Hsig, main_turn_interrupted. cbv beta iota delta [ok ret].
      eexists. split; [reflexivity|]. split; [exact Hin|].
      split; [unfold same_diary; cbn; tauto|].
      split; [unfold same_server; cbn; tauto|]. reflexivity.
  - destruct (main_turn_at_end_of_input s Hin)
      as (s1 & Hrun & Hin1 & Hd1 & Hs1 & Hout1).
    assert (H0 : signal O = false) by (apply Hquiet; lia).
    assert (Hquiet' : forall n, (n < turns)%nat -> signal (S n) = false)
      by (intros n Hn; apply Hquiet; lia).
    destruct (IH (fun n => signal (S n)) s1 Hin1 Hquiet') as (Hgo & Hstop).
    split.
    + destruct Hgo as (s' & Hloop & Hin' & Hd' & Hs' & Hout').
      exists s'. cbn [main_loop]. unfold bind. rewrite H0, Hrun.
      cbv beta iota delta [ok]. rewrite Hloop.
      split; [reflexivity|]. split; [exact Hin'|].
      split; [apply (same_diary_trans Hd1 Hd')|].
      split; [apply (same_server_trans Hs1 Hs')|].
      rewrite Hout', Hout1. cbn [turns_at_end_of_input].
      rewrite <- !app_assoc. reflexivity.
    + intros Hsig. destruct (Hstop Hsig)
        as (s' & Hloop & Hin' & Hd' & Hs' & Hout').
      exists s'. change (main_loop encryption ollama signal (S (S turns)) s)
        with (bind (main_turn encryption ollama (signal O))
                (fun t => match t with
                          | Exit code => ret (Some code)
                          | Continue =>
                              main_loop encryption ollama
                                        (fun n => signal (S n)) (S turns)
                          end) s).
      unfold bind. rewrite H0, Hrun.
      cbv beta iota delta [ok]. rewrite Hloop.
      split; [reflexivity|]. split; [exact Hin'|].
      split; [apply (same_diary_trans Hd1 Hd')|].
      split; [apply (same_server_trans Hs1 Hs')|].
      rewrite Hout', Hout1. cbn [turns_at_end_of_input].
      rewrite <- !app_assoc. reflexivity.
Qed.

(** X27: a choice that is none of the four is refused and costs nothing:
    after the menu and the prompt the turn prints that the option is
    invalid, waits for ENTER, clears the screen, shows the banner and
    goes on, with the diary and the server as they were. *)
Theorem unknown_choice_is_refused
        (s : State) (line enter : str) (rest : list str) :
  stdin s = line :: enter :: rest ->
  unknown_choice (strip line) ->
  exists s',
    main_turn encryption ollama false s = (ok Continue, s') /\
    stdout s'
    = stdout s
      ++ [menu_text; select_prompt;
          (NL ++ Colors.RED ++ lit "Invalid option. Please choose 1-4."
           ++ Colors.END) ++ NL;
          NL ++ Colors.BOLD ++ lit "Press ENTER to continue..."
          ++ Colors.END;
          clear_text; banner_text] /\
    stdin s' = rest /\ same_diary s s' /\ same_server s s'.
Proof.
  intros Hin (H1 & H2 & H3 & H4).
  apply str_eqb_neq in H1, H2, H3, H4.
  rewrite main_turn_run, turn_body_run. cbn [stdin set_stdout].
  rewrite Hin. cbv zeta. rewrite H1, H2, H3, H4.
  unfold resume, clear_screen, print_banner. run.
  eexists. split; [reflexivity|].
  split; [cbn [stdout set_stdout set_stdin];
          rewrite <- !app_assoc; reflexivity|].
  split; [reflexivity|].
  split; [unfold same_diary; cbn; tauto | unfold same_server; cbn; tauto].
Qed.

(** X28: a key file that Fernet rejects stops the program at once:
    [main] raises Fernet's error before anything is loaded or printed,
    and leaves everything, the key file included, as it was. *)
Theorem main_stops_on_rejected_key
        (s : State) (f : file) (e : exn) (signal : nat -> bool)
        (turns : nat) :
  fs s KEY_FILE = Some f ->
  io_fault s (OpenRead KEY_FILE) = None ->
  Fernet (f_data f) = err e ->
  main signal turns s = (err e, s).
Proof.
  intros Hf Hr HF. unfold main, EncryptionManager_init.
  cbv beta iota zeta delta [bind lift ret ok err].
  rewrite (load_or_create_key_existing _ Hf), Hr.
  cbv beta iota delta [ok err]. rewrite HF. reflexivity.
Qed.

End Menu.

(* ------------------------------------------------------------------ *)
(** ** Runs of the properties above on the small instance *)

Lemma check_availability_reports_server_witness :
  exists s',
    check_availability Demo.fresh = (ok false, s') /\
    is_available s' = false /\ requests s' = 1%nat.
Proof.
  destruct (check_availability_reports_server Demo.fresh)
    as (available & s' & Hrun & Hflag & Hiff & Hreq & _).
  destruct available.
  - exfalso. destruct Hiff as [H _]. specialize (H eq_refl). discriminate.
  - exists s'. repeat split; assumption.
Defined.

Lemma view_shows_the_latest_five_witness :
  (exists s',
      view_recent_entries (P := Demo2.platform) Demo.fresh = (ok tt, s') /\
      stdout s' = [view_header; no_entries_yet ++ NL]) /\
  (exists s',
      view_recent_entries (P := Demo2.platform) Demo.diary = (ok tt, s') /\
      stdout s'
      = [view_header;
         (Colors.BOLD ++ lit "1. on 2024-01-03T07:30:00" ++ Colors.END)
         ++ NL;
         (Colors.CYAN ++ lit "third" ++ Colors.END) ++ NL;
         NL;
         (Colors.BOLD ++ lit "2. on 2024-01-02T09:00:00" ++ Colors.END)
         ++ NL;
         (Colors.CYAN ++ lit "second" ++ Colors.END) ++ NL;
         NL;
         (Colors.BOLD ++ lit "3. on 2024-01-01T08:00:00" ++ Colors.END)
         ++ NL;
         (Colors.CYAN ++ lit "first" ++ Colors.END) ++ NL;
         NL;
         showing_line 3 3 ++ NL]).
Proof.
  split.
  - apply (proj1 (@view_shows_the_latest_five Demo2.platform Demo.fresh)).
    reflexivity.
  - destruct (proj2 (@view_shows_the_latest_five Demo2.platform Demo.diary))
      as (s' & Hrun & Hout).
    + intros H. vm_compute in H. discriminate H.
    + vm_compute. repeat (constructor; [eexists; reflexivity|]).
      constructor.
    + exists s'. split; [exact Hrun|]. rewrite Hout. reflexivity.
Defined.

Lemma view_stops_at_bad_timestamp_witness :
  exists s',
    view_recent_entries (P := Demo2.platform) Demo2.scribbled
    = (err (Exc ValueError (lit "Invalid isoformat string")), s') /\
    stdout s'
    = [view_header;
       (Colors.BOLD ++ lit "1. on 2024-01-03T07:30:00" ++ Colors.END) ++ NL;
       (Colors.CYAN ++ lit "third" ++ Colors.END) ++ NL;
       NL] /\
    same_diary Demo2.scribbled s'.
Proof.
  apply (@view_stops_at_bad_timestamp Demo2.platform Demo2.scribbled
           [(lit "2024-01-03T07:30:00", lit "third")]
           (lit "1999") (lit "an old note") []).
  - reflexivity.
  - constructor; [eexists; reflexivity | constructor].
  - reflexivity.
Defined.

Lemma preview_is_short_witness :
  preview (lit "a short entry") = lit "a short entry".
Proof.
  apply (proj2 (proj2 (preview_is_short (lit "a short entry")))).
  vm_compute. lia.
Defined.

Lemma declined_entry_is_discarded_witness :
  exists s',
    write_entry (R := Demo.runtime) Demo.manager Demo2.default_model
                (Demo2.typed [lit "Dear diary"; lit "END"; lit "y";
                              lit " N "; lit "next"])
    = (ok tt, s') /\
    entries s' = [] /\ fs s' ENTRIES_FILE = None /\ stdin s' = [lit "next"].
Proof.
  destruct (@declined_entry_is_discarded Demo.runtime Demo.fernet
              Demo.manager Demo2.default_model
              (Demo2.typed [lit "Dear diary"; lit "END"; lit "y";
                            lit " N "; lit "next"])
              [lit "Dear diary"] (lit "y") (lit " N ") [lit "next"])
    as (s' & Hrun & (He & Hfs & _) & Hin).
  - reflexivity.
  - vm_compute. discriminate.
  - reflexivity.
  - exists s'. split; [exact Hrun|]. rewrite He, Hfs, Hin. repeat split.
Defined.

Lemma entry_at_end_of_input_is_lost_witness :
  exists s',
    write_entry (R := Demo.runtime) Demo.manager Demo2.default_model
                (Demo2.typed [lit "Dear diary"; lit "more"])
    = (err end_of_input, s') /\
    entries s' = [].
Proof.
  destruct (@entry_at_end_of_input_is_lost Demo.runtime Demo.fernet
              Demo.manager Demo2.default_model
              (Demo2.typed [lit "Dear diary"; lit "more"])
              [lit "Dear diary"; lit "more"])
    as (s' & Hrun & (He & _) & _).
  - reflexivity.
  - vm_compute. discriminate.
  - exists s'. split; [exact Hrun|]. rewrite He. reflexivity.
Defined.

Lemma accepted_entry_is_saved_witness :
  exists s',
    write_entry (R := Demo.runtime) Demo.manager Demo2.default_model
                (Demo2.typed [lit "Dear diary"; lit "end"; []; [];
                              lit "next"])
    = (ok tt, s') /\
    stdin s' = [lit "next"] /\
    entries s' = [(lit "2024-01-01T10:00:00", lit "Dear diary")].
Proof.
  apply (@accepted_entry_is_saved Demo.runtime Demo.fernet
           Demo.manager Demo2.default_model
           (Demo2.typed [lit "Dear diary"; lit "end"; []; []; lit "next"])
           [lit "Dear diary"] [] [] [lit "next"]).
  - reflexivity.
  - vm_compute. discriminate.
  - vm_compute. discriminate.
Defined.

Lemma declined_analysis_sends_nothing_witness :
  let s := Demo2.with_server Demo2.kind
             (Demo2.typed [lit "Dear diary"; lit "END"; lit "n"; []]) in
  requests (snd (write_entry (R := Demo.runtime) Demo.manager
                             Demo2.default_model s)) = 0%nat.
Proof.
  intros s.
  destruct (@declined_analysis_sends_nothing Demo.runtime Demo.fernet
              Demo.manager Demo2.default_model s
              [lit "Dear diary"] (lit "n") [] [])
    as (Hreq & _).
  - reflexivity.
  - vm_compute. discriminate.
  - reflexivity.
  - exact Hreq.
Defined.

Lemma check_status_only_reports_witness :
  exists s',
    check_status (P := Demo2.platform) Demo2.default_model
                 (Demo2.with_server Demo2.kind Demo.diary) = (ok tt, s') /\
    is_available s' = true /\ entries s' = Demo.three_entries.
Proof.
  destruct (@check_status_only_reports Demo2.platform Demo2.default_model
              (Demo2.with_server Demo2.kind Demo.diary))
    as (s' & Hrun & Hiff & _ & (He & _) & _).
  exists s'. split; [exact Hrun|]. split.
  - apply Hiff. reflexivity.
  - rewrite He. reflexivity.
Defined.


Lemma choice_four_exits_witness :
  exists s',
    main_loop (R := Demo.runtime) (P := Demo2.platform) Demo.manager
              Demo2.default_model (fun _ => false) 5
              (Demo2.typed [lit "4"; lit "later"]) = (ok (Some 0), s') /\
    stdout s'
    = [menu_text; select_prompt;
       (NL ++ Colors.CYAN ++ [0x1F44B]
        ++ lit " Thank you for using Privacy Diary!" ++ Colors.END) ++ NL;
       (Colors.CYAN ++ lit "Your entries are safe and encrypted."
        ++ Colors.END ++ NL) ++ NL] /\
    stdin s' = [lit "later"].
Proof.
  destruct (@choice_four_exits Demo.runtime Demo.fernet Demo2.platform
              Demo.manager Demo2.default_model
              (Demo2.typed [lit "4"; lit "later"]) (lit "4") [lit "later"]
              (fun _ => false) 4 eq_refl eq_refl eq_refl)
    as (s' & _ & Hloop & Hout & _ & _ & Hin).
  exists s'. split; [exact Hloop|]. split; [exact Hout | exact Hin].
Defined.

Lemma loop_spins_at_end_of_input_witness :
  (exists s',
      main_loop (R := Demo.runtime) (P := Demo2.platform) Demo.manager
                Demo2.default_model (fun n => Nat.eqb n 2) 2 Demo.fresh
      = (ok None, s') /\
      stdout s' = turn_at_end_of_input ++ turn_at_end_of_input) /\
  (exists s',
      main_loop (R := Demo.runtime) (P := Demo2.platform) Demo.manager
                Demo2.default_model (fun n => Nat.eqb n 2) 3 Demo.fresh
      = (ok (Some 0), s') /\
      stdout s'
      = turn_at_end_of_input ++ turn_at_end_of_input
        ++ [menu_text; select_prompt;
            (NL ++ NL ++ Colors.CYAN ++ [0x1F44B] ++ lit " Goodbye!"
             ++ Colors.END ++ NL) ++ NL]).
Proof.
  destruct (@loop_spins_at_end_of_input Demo.runtime Demo.fernet
              Demo2.platform Demo.manager Demo2.default_model 2
              (fun n => Nat.eqb n 2) Demo.fresh eq_refl)
    as ((s1 & Hgo & _ & _ & _ & Hout1) & Hstop).
  - intros n Hn. destruct n as [|[|n]]; [reflexivity | reflexivity | lia].
  - split.
    + exists s1. split; [exact Hgo|]. rewrite Hout1. reflexivity.
    + destruct (Hstop eq_refl) as (s2 & Hend & _ & _ & _ & Hout2).
      exists s2. split; [exact Hend|]. rewrite Hout2. reflexivity.
Defined.

Lemma unknown_choice_is_refused_witness :
  exists s',
    main_turn (R := Demo.runtime) (P := Demo2.platform) Demo.manager
              Demo2.default_model false
              (Demo2.typed [lit "9"; []; lit "later"]) = (ok Continue, s') /\
    stdout s'
    = [menu_text; select_prompt;
       (NL ++ Colors.RED ++ lit "Invalid option. Please choose 1-4."
        ++ Colors.END) ++ NL;
       NL ++ Colors.BOLD ++ lit "Press ENTER to continue..." ++ Colors.END;
       27 :: lit "[H"; banner_text] /\
    stdin s' = [lit "later"].
Proof.
  destruct (@unknown_choice_is_refused Demo.runtime Demo.fernet
              Demo2.platform Demo.manager Demo2.default_model
              (Demo2.typed [lit "9"; []; lit "later"])
              (lit "9") [] [lit "later"] eq_refl)
    as (s' & Hrun & Hout & Hin & _).
  - repeat split; intros H; vm_compute in H; discriminate.
  - exists s'. split; [exact Hrun|]. split; [exact Hout | exact Hin].
Defined.

Lemma main_stops_on_rejected_key_witness :
  main (R := Demo.runtime) (F := Demo.fernet) (P := Demo2.platform)
       (fun _ => false) 10 Demo2.bad_key
  = (err (Exc ValueError
              (lit "Fernet key must be 32 url-safe base64-encoded bytes.")),
     Demo2.bad_key).
Proof.
  apply (@main_stops_on_rejected_key Demo.runtime Demo.fernet Demo2.platform
           Demo2.bad_key (File (lit "not a key") (octal [6; 4; 4])));
    reflexivity.
Defined.
